(** * keras_core.metrics.metric: the [Metric] base class

    A shallow embedding of [src/keras_core/metrics/metric.py].

    Python objects live in a store ([heap]) and are referred to by
    location, so that the aliasing the class relies on is visible: the
    list bound to [self._variables] is the very list the tracker appends
    to.  Every method is a state transformer that returns the new store
    together with either an exception or a value; an exception keeps the
    mutations made before it was raised, as in Python. *)

From stdpp Require Import gmap strings list fin_maps.
From Stdlib Require Import ZArith.

#[local] Set Warnings "-register-all".
#[local] Open Scope string_scope.
#[local] Open Scope Z_scope.
#[local] Open Scope list_scope.

(** ** Values and objects *)

(** Object identity, what Python's [id()] returns. *)
Abbreviation loc := nat (only parsing).

(** Python values as far as the class handles them.  Mutable objects are
    reached through [VRef]; a tuple is an immutable value that may hold
    references. *)
Inductive value : Type :=
| VNone
| VBool (b : bool)
| VInt (z : Z)
| VStr (s : string)
| VRef (l : loc)
| VTuple (vs : list value).

(** Modelled from the spec: [backend.Variable], which [metric.py] imports:
    "a named, shaped, typed mutable numeric container, initialized via a
    pluggable initializer, marked non-trainable".  The numeric content is
    the flat list of the tensor's entries. *)
Record BackendVariable : Type := mkVariable {
  var_shape : value;
  var_dtype : value;
  var_trainable : bool;
  var_name : value;
  var_value : list Z
}.

(** Modelled from the spec: [keras_core.utils.tracking.Tracker], which
    [metric.py] imports: "an attribute-tracking hook that classifies an
    arbitrary value and records it under a category if it matches a
    predicate".  The configuration built in [Metric.__init__] has the two
    categories "variables" and "metrics"; each holds the list it stores
    into (by reference) and the set [stored_ids] of identities already
    recorded. *)
Record Tracker : Type := mkTracker {
  store_variables : loc;
  store_metrics : loc;
  stored_ids_variables : gset loc;
  stored_ids_metrics : gset loc
}.

Inductive obj : Type :=
| OVariable (v : BackendVariable)
| OMetric (cls : string) (attrs : gmap string value)
| OList (items : list value)
| OTracker (t : Tracker).

(** The program state: the object store and the counter of the naming
    utility ([auto_name] hands out a new name at each call). *)
Record state : Type := mkState {
  heap : list obj;
  name_uid : nat
}.

Inductive exn : Type :=
| RuntimeError (msg : string)
| NotImplementedError
| AttributeError (attr : string)
| TypeError (msg : string)
| ValueError (msg : string).

(** ** The state and exception monad *)

Definition M (A : Type) : Type := state -> state * (exn + A).

Definition ret {A} (a : A) : M A := fun st => (st, inr a).
Definition raise {A} (e : exn) : M A := fun st => (st, inl e).
Definition bind {A B} (m : M A) (k : A -> M B) : M B :=
  fun st =>
    match m st with
    | (st', inl e) => (st', inl e)
    | (st', inr a) => k a st'
    end.

Declare Scope py_scope.
Delimit Scope py_scope with py.
Notation "x <- c1 ;; c2" := (bind c1 (fun x => c2))
  (at level 100, c1 at next level, right associativity) : py_scope.
Notation "c1 ;;; c2" := (bind c1 (fun _ => c2))
  (at level 100, right associativity) : py_scope.
#[local] Open Scope py_scope.

(** ** Store primitives *)

Definition alloc (o : obj) : M loc :=
  fun st => (mkState (heap st ++ [o]) (name_uid st), inr (length (heap st))).

Definition set_obj (l : loc) (o : obj) : M unit :=
  fun st => (mkState (<[l := o]> (heap st)) (name_uid st), inr tt).

Definition get_obj (l : loc) : state -> option obj :=
  fun st => heap st !! l.

(** [hasattr(x, name)] on an instance. *)
Definition hasattr (st : state) (x : loc) (name : string) : bool :=
  match get_obj x st with
  | Some (OMetric _ attrs) => bool_decide (is_Some (attrs !! name))
  | _ => false
  end.

(** [x.name]: an attribute read; a missing attribute is an
    [AttributeError]. *)
Definition getattr (x : value) (name : string) : M value :=
  fun st =>
    match x with
    | VRef l =>
        match get_obj l st with
        | Some (OMetric _ attrs) =>
            match attrs !! name with
            | Some v => (st, inr v)
            | None => (st, inl (AttributeError name))
            end
        | _ => (st, inl (AttributeError name))
        end
    | _ => (st, inl (AttributeError name))
    end.

(** The properties of the class, lines 119-121 and 142-147: [dtype] and
    [variables] are defined with [@property] and have no setter. *)
Definition read_only_property (name : string) : bool :=
  bool_decide (name ∈ ["dtype"; "variables"]).

(** [object.__setattr__(x, name, value)] on an instance of the class: a
    property without setter refuses the assignment with an
    [AttributeError], any other name is stored in the instance. *)
Definition object_setattr (x : loc) (name : string) (v : value) : M unit :=
  fun st =>
    match get_obj x st with
    | Some (OMetric c attrs) =>
        if read_only_property name then (st, inl (AttributeError name))
        else set_obj x (OMetric c (<[name := v]> attrs)) st
    | _ => (st, inl (AttributeError name))
    end.

(** The items of the list object a value refers to. *)
Definition list_items (v : value) : M (list value) :=
  fun st =>
    match v with
    | VRef l =>
        match get_obj l st with
        | Some (OList items) => (st, inr items)
        | _ => (st, inl (TypeError "object is not iterable"))
        end
    | _ => (st, inl (TypeError "object is not iterable"))
    end.

(** [lst.append(x)] on the list object at [l]. *)
Definition list_append (l : loc) (x : value) : M unit :=
  fun st =>
    match get_obj l st with
    | Some (OList items) => set_obj l (OList (items ++ [x])) st
    | _ => (st, inl (AttributeError "append"))
    end.

(** Python truthiness, used by [name or auto_name(...)]. *)
Definition truthy (st : state) (v : value) : bool :=
  match v with
  | VNone => false
  | VBool b => b
  | VInt z => negb (z =? 0)
  | VStr s => negb (String.eqb s "")
  | VRef l =>
      match get_obj l st with
      | Some (OList []) => false
      | _ => true
      end
  | VTuple vs => match vs with [] => false | _ => true end
  end.

(** ** The tracker *)

(** Modelled from the spec: [Tracker.add_to_store]; the value is appended
    to the category's list and its identity is recorded. *)
Definition add_to_store_variables (t : loc) (T : Tracker) (x : loc) : M unit :=
  list_append (store_variables T) (VRef x) ;;;
  set_obj t (OTracker (mkTracker (store_variables T) (store_metrics T)
                         ({[x]} ∪ stored_ids_variables T)
                         (stored_ids_metrics T))).

Definition add_to_store_metrics (t : loc) (T : Tracker) (x : loc) : M unit :=
  list_append (store_metrics T) (VRef x) ;;;
  set_obj t (OTracker (mkTracker (store_variables T) (store_metrics T)
                         (stored_ids_variables T)
                         ({[x]} ∪ stored_ids_metrics T))).

(** Modelled from the spec: [Tracker.track], "the hook recognizes values
    that are state variables or Metric instances and registers them into
    the corresponding registry exactly once (by identity), independent of
    how deeply nested the assignment is".  The tracker is read again at
    each element, since tracking an element updates it. *)
Definition track_ref (t : loc) (x : loc) : M unit :=
  fun st =>
    match get_obj t st with
    | Some (OTracker T) =>
        match get_obj x st with
        | Some (OVariable _) =>
            if decide (x ∈ stored_ids_variables T) then (st, inr tt)
            else add_to_store_variables t T x st
        | Some (OMetric _ _) =>
            if decide (x ∈ stored_ids_metrics T) then (st, inr tt)
            else add_to_store_metrics t T x st
        | _ => (st, inr tt)
        end
    | _ => (st, inl (AttributeError "track"))
    end.

Fixpoint track_value (t : loc) (v : value) : M unit :=
  match v with
  | VRef x => track_ref t x
  | VTuple vs =>
      fold_right (fun e k => track_value t e ;;; k) (ret tt) vs
  | _ => ret tt
  end.

(** [self._tracker.track(value)]: the method is looked up on the tracker
    first, the value comes back as it was given. *)
Definition track (tracker : value) (v : value) : M value :=
  match tracker with
  | VRef t =>
      fun st =>
        match get_obj t st with
        | Some (OTracker _) => (track_value t v ;;; ret v) st
        | _ => (st, inl (AttributeError "track"))
        end
  | _ => raise (AttributeError "track")
  end.

(** ** The collaborators of the class *)

(** A variable initializer: from the shape and the dtype to the entries of
    the initial tensor. *)
Definition Initializer : Type := value -> value -> list Z.

(** What a subclass of [Metric] may override.  [None] stands for the
    method inherited from [Metric]. *)
Record MetricClass : Type := mkMetricClass {
  cls_init : option (loc -> list value -> gmap string value -> M unit);
  cls_update_state : option (loc -> list value -> gmap string value -> M unit);
  cls_result : option (loc -> M value)
}.

(** What [metric.py] takes from its surroundings: the subclasses of the
    program (the class table), the names [auto_name] forms from a prefix
    and a number, and [initializers.get], which resolves an initializer
    identifier or raises. *)
Class Collaborators : Type := mkCollaborators {
  classes : string -> MetricClass;
  auto_name_format : string -> nat -> string;
  initializers_get : value -> exn + Initializer
}.

(** ** Calling conventions *)

(** Binding of positional and keyword arguments to a signature, given as
    parameter names with optional defaults.  Every mismatch is a
    [TypeError]. *)
Definition bind_error : exn := TypeError "arguments do not match the signature".

Fixpoint bind_from (params : list (string * option value)) (args : list value)
    (kwargs : gmap string value) : exn + list value :=
  match params with
  | [] => match args with [] => inr [] | _ => inl bind_error end
  | (p, default) :: params' =>
      match args with
      | a :: args' =>
          match kwargs !! p with
          | Some _ => inl bind_error
          | None => match bind_from params' args' kwargs with
                    | inr vs => inr (a :: vs)
                    | inl e => inl e
                    end
          end
      | [] =>
          match kwargs !! p, default with
          | Some v, _ | None, Some v =>
              match bind_from params' [] kwargs with
              | inr vs => inr (v :: vs)
              | inl e => inl e
              end
          | None, None => inl bind_error
          end
      end
  end.

Definition bind_params (params : list (string * option value)) (args : list value)
    (kwargs : gmap string value) : exn + list value :=
  if forallb (fun k => bool_decide (k ∈ params.*1)) (map_to_list kwargs).*1
  then bind_from params args kwargs
  else inl bind_error.

Definition lift {A} (r : exn + A) : M A :=
  match r with
  | inl e => raise e
  | inr a => ret a
  end.

(** The error of [_check_super_called]. *)
Definition forgot_super : exn :=
  RuntimeError
    "You forgot to call `super().__init__()` in the `__init__()` method. Go add it!".

(** The variable [V] with every entry set to zero. *)
Definition zero_variable (V : BackendVariable) : BackendVariable :=
  mkVariable (var_shape V) (var_dtype V) (var_trainable V) (var_name V)
    (List.map (fun _ => 0) (var_value V)).

(** ** The class [Metric] *)

Section Metric.
Context `{E : Collaborators}.

(** Modelled from the spec: [auto_name(prefix)], the "name-uniquification
    function" of [keras_core.utils.naming]: a name formed from the prefix
    and a number that is used up by the call. *)
Definition auto_name (prefix : string) : M value :=
  fun st => (mkState (heap st) (S (name_uid st)),
             inr (VStr (auto_name_format prefix (name_uid st)))).

(** [self.__class__.__name__]. *)
Definition class_name (self : loc) : M string :=
  fun st =>
    match get_obj self st with
    | Some (OMetric c _) => (st, inr c)
    | _ => (st, inl (AttributeError "__class__"))
    end.

(** Lines 168-173. *)
Definition _check_super_called (self : loc) : M unit :=
  fun st =>
    if hasattr st self "_tracker" then (st, inr tt)
    else (st, inl forgot_super).

(** Lines 162-166. *)
Definition __setattr__ (self : loc) (name : string) (v : value) : M unit :=
  fun st =>
    if hasattr st self "_tracker" then
      (tracker <- getattr (VRef self) "_tracker" ;;
       v' <- track tracker v ;;
       object_setattr self name v') st
    else object_setattr self name v st.

(** Lines 83-96.  The two lists are created once and the tracker is given
    the same two list objects the attributes refer to. *)
Definition __init__ (self : loc) (dtype name : value) : M unit :=
  n <- (fun st => if truthy st name then ret name st
                  else (c <- class_name self ;; auto_name c) st) ;;
  __setattr__ self "name" n ;;;
  __setattr__ self "_dtype" dtype ;;;
  lm <- alloc (OList []) ;;
  __setattr__ self "_metrics" (VRef lm) ;;;
  lv <- alloc (OList []) ;;
  __setattr__ self "_variables" (VRef lv) ;;;
  sv <- getattr (VRef self) "_variables" ;;
  sm <- getattr (VRef self) "_metrics" ;;
  match sv, sm with
  | VRef sv, VRef sm =>
      t <- alloc (OTracker (mkTracker sv sm ∅ ∅)) ;;
      __setattr__ self "_tracker" (VRef t)
  | _, _ => raise (TypeError "tracker store is not a list")
  end.

(** A call of [Metric.__init__] with positional and keyword arguments,
    against the signature
    [(dtype=None, name=None)]. *)
Definition call___init__ (self : loc) (args : list value)
    (kwargs : gmap string value) : M unit :=
  vs <- lift (bind_params [("dtype", Some VNone); ("name", Some VNone)] args kwargs) ;;
  match vs with
  | [dtype; name] => __init__ self dtype name
  | _ => raise bind_error
  end.

(** A call of the class [cls]: a new instance, then the class's
    [__init__]. *)
Definition construct (cls : string) (args : list value)
    (kwargs : gmap string value) : M value :=
  self <- alloc (OMetric cls ∅) ;;
  match cls_init (classes cls) with
  | Some init => init self args kwargs
  | None => call___init__ self args kwargs
  end ;;;
  ret (VRef self).

(** Lines 107-109, with the dispatch on the class of [self]. *)
Definition update_state (self : loc) (args : list value)
    (kwargs : gmap string value) : M unit :=
  c <- class_name self ;;
  match cls_update_state (classes c) with
  | Some f => f self args kwargs
  | None => raise NotImplementedError
  end.

(** Lines 111-117, with the dispatch on the class of [self]. *)
Definition result (self : loc) : M value :=
  c <- class_name self ;;
  match cls_result (classes c) with
  | Some f => f self
  | None => raise NotImplementedError
  end.

(** Lines 119-121. *)
Definition dtype (self : loc) : M value := getattr (VRef self) "_dtype".

(** Modelled from the spec: [backend.Variable(...)], the
    "variable-creation primitive taking (shape, initializer, dtype,
    trainable-flag, name)". *)
Definition new_Variable (initializer : Initializer) (shape dtype : value)
    (trainable : bool) (name : value) : M loc :=
  alloc (OVariable (mkVariable shape dtype trainable name (initializer shape dtype))).

(** Modelled from the spec: [self._tracker.stored_ids["variables"].add(i)]. *)
Definition stored_ids_variables_add (tracker : value) (i : loc) : M unit :=
  fun st =>
    match tracker with
    | VRef t =>
        match get_obj t st with
        | Some (OTracker T) =>
            set_obj t (OTracker (mkTracker (store_variables T) (store_metrics T)
                                   ({[i]} ∪ stored_ids_variables T)
                                   (stored_ids_metrics T))) st
        | _ => (st, inl (AttributeError "stored_ids"))
        end
    | _ => (st, inl (AttributeError "stored_ids"))
    end.

(** [lst.append(x)] where [lst] is a value. *)
Definition append (lst : value) (x : value) : M unit :=
  match lst with
  | VRef l => list_append l x
  | _ => raise (AttributeError "append")
  end.

(** Lines 123-136. *)
Definition add_variable (self : loc) (shape initializer dtype name : value)
    : M value :=
  _check_super_called self ;;;
  initializer <- lift (initializers_get initializer) ;;
  variable <- new_Variable initializer shape dtype false name ;;
  lst <- getattr (VRef self) "_variables" ;;
  append lst (VRef variable) ;;;
  tracker <- getattr (VRef self) "_tracker" ;;
  stored_ids_variables_add tracker variable ;;;
  ret (VRef variable).

(** A call of [self.add_variable] with positional and keyword arguments,
    against the signature
    [(shape, initializer, dtype=None, name=None)]. *)
Definition call_add_variable (self : loc) (args : list value)
    (kwargs : gmap string value) : M value :=
  vs <- lift (bind_params [("shape", None); ("initializer", None);
                           ("dtype", Some VNone); ("name", Some VNone)]
                args kwargs) ;;
  match vs with
  | [shape; initializer; dtype; name] =>
      add_variable self shape initializer dtype name
  | _ => raise bind_error
  end.

(** Lines 138-140. *)
Definition add_weight (self : loc) (args : list value)
    (kwargs : gmap string value) : M value :=
  call_add_variable self args kwargs.

(** The loop of lines 145-146: [variables.extend(metric._variables)] for
    each [metric]. *)
Fixpoint extend_with_children (variables : list value) (metrics : list value)
    : M (list value) :=
  match metrics with
  | [] => ret variables
  | metric :: rest =>
      mv <- getattr metric "_variables" ;;
      items <- list_items mv ;;
      extend_with_children (variables ++ items) rest
  end.

(** Lines 142-147.  The result is a new list: a copy of [self._variables]
    extended in place. *)
Definition variables (self : loc) : M (list value) :=
  own <- getattr (VRef self) "_variables" ;;
  variables <- list_items own ;;
  ms <- getattr (VRef self) "_metrics" ;;
  metrics <- list_items ms ;;
  extend_with_children variables metrics.

(** Modelled from the spec: [Variable.assign(0)], "zero-assignment" of the
    container: every entry becomes zero, the shape is kept. *)
Definition assign_zero (v : value) : M unit :=
  fun st =>
    match v with
    | VRef l =>
        match get_obj l st with
        | Some (OVariable V) =>
            set_obj l (OVariable (zero_variable V)) st
        | _ => (st, inl (AttributeError "assign"))
        end
    | _ => (st, inl (AttributeError "assign"))
    end.

Fixpoint for_each {A} (f : A -> M unit) (l : list A) : M unit :=
  match l with
  | [] => ret tt
  | x :: rest => f x ;;; for_each f rest
  end.

(** Lines 98-105. *)
Definition reset_state (self : loc) : M unit :=
  vs <- variables self ;;
  for_each assign_zero vs.

(** Lines 149-152. *)
Definition __call__ (self : loc) (args : list value)
    (kwargs : gmap string value) : M value :=
  _check_super_called self ;;;
  update_state self args kwargs ;;;
  result self.

(** Lines 154-156. *)
Definition get_config (self : loc) : M (gmap string value) :=
  name <- getattr (VRef self) "name" ;;
  dtype <- dtype self ;;
  ret (<["dtype" := dtype]> (<["name" := name]> ∅)).

(** Lines 158-160. *)
Definition from_config (cls : string) (config : gmap string value) : M value :=
  construct cls [] config.

End Metric.

(** ** Observations on a state *)

(** The registries of a metric as a caller reads them: the items of
    [m._variables] and of [m._metrics]. *)
Definition read_list_attr (st : state) (m : value) (name : string)
    : option (list value) :=
  match getattr m name st with
  | (_, inr lst) =>
      match list_items lst st with
      | (_, inr items) => Some items
      | _ => None
      end
  | _ => None
  end.

Definition own_variables (st : state) (m : value) : option (list value) :=
  read_list_attr st m "_variables".

Definition own_metrics (st : state) (m : value) : option (list value) :=
  read_list_attr st m "_metrics".

(** The own variables of each metric of a list, [None] when one of them
    has no readable registry. *)
Definition children_variables (st : state) (metrics : list value)
    : option (list (list value)) :=
  mapM (own_variables st) metrics.

Definition is_variable (st : state) (v : value) : bool :=
  match v with
  | VRef l => match get_obj l st with Some (OVariable _) => true | _ => false end
  | _ => false
  end.


(** The variable [v] holds zero in every entry. *)
Definition reads_zero (st : state) (v : value) : bool :=
  match v with
  | VRef l =>
      match get_obj l st with
      | Some (OVariable V) => forallb (Z.eqb 0) (var_value V)
      | _ => false
      end
  | _ => false
  end.

(** The entries a variable holds. *)
Definition read_variable (st : state) (v : value) : option (list Z) :=
  match v with
  | VRef l =>
      match get_obj l st with
      | Some (OVariable V) => Some (var_value V)
      | _ => None
      end
  | _ => None
  end.

(** The attribute names [Metric.__init__] uses for its bookkeeping. *)
Definition reserved (name : string) : bool :=
  bool_decide (name ∈ ["_variables"; "_metrics"; "_tracker"]).

(** What a metric looks like once [Metric.__init__] has run: its
    attributes, the two registry lists and the tracker that shares
    them. *)
Record MetricView : Type := mkView {
  mv_class : string;
  mv_attrs : gmap string value;
  mv_variables_at : loc;
  mv_metrics_at : loc;
  mv_tracker_at : loc;
  mv_variables : list value;
  mv_metrics : list value;
  mv_ids_variables : gset loc;
  mv_ids_metrics : gset loc
}.

Definition constructed (st : state) (self : loc) (V : MetricView) : Prop :=
  heap st !! self = Some (OMetric (mv_class V) (mv_attrs V)) ∧
  mv_attrs V !! "_variables" = Some (VRef (mv_variables_at V)) ∧
  mv_attrs V !! "_metrics" = Some (VRef (mv_metrics_at V)) ∧
  mv_attrs V !! "_tracker" = Some (VRef (mv_tracker_at V)) ∧
  heap st !! mv_variables_at V = Some (OList (mv_variables V)) ∧
  heap st !! mv_metrics_at V = Some (OList (mv_metrics V)) ∧
  heap st !! mv_tracker_at V =
    Some (OTracker (mkTracker (mv_variables_at V) (mv_metrics_at V)
                      (mv_ids_variables V) (mv_ids_metrics V))) ∧
  mv_variables_at V ≠ mv_metrics_at V.

(** The view after one more variable, or one more child metric, has been
    registered. *)
Definition view_add_variable (V : MetricView) (x : loc) : MetricView :=
  mkView (mv_class V) (mv_attrs V) (mv_variables_at V) (mv_metrics_at V)
    (mv_tracker_at V) (mv_variables V ++ [VRef x]) (mv_metrics V)
    ({[x]} ∪ mv_ids_variables V) (mv_ids_metrics V).


Definition view_set_attr (V : MetricView) (name : string) (v : value)
    : MetricView :=
  mkView (mv_class V) (<[name := v]> (mv_attrs V)) (mv_variables_at V)
    (mv_metrics_at V) (mv_tracker_at V) (mv_variables V) (mv_metrics V)
    (mv_ids_variables V) (mv_ids_metrics V).

(** [st'] has the objects of [st], except that variables may hold other
    entries. *)
Definition same_but_variables (st st' : state) : Prop :=
  ∀ l o, heap st !! l = Some o → (∀ V, o ≠ OVariable V) → heap st' !! l = Some o.

Inductive kind : Type := KVariable | KMetric | KList | KTracker.

Definition kind_of (o : obj) : kind :=
  match o with
  | OVariable _ => KVariable
  | OMetric _ _ => KMetric
  | OList _ => KList
  | OTracker _ => KTracker
  end.

(** The registries and the recorded identities agree: the lists hold
    references to variables, respectively metrics, each once, and exactly
    those whose identity the tracker has recorded. *)
Definition registered_once (st : state) (V : MetricView) : Prop :=
  NoDup (mv_variables V) ∧ NoDup (mv_metrics V) ∧
  (∀ v, v ∈ mv_variables V → ∃ l, v = VRef l ∧ l ∈ mv_ids_variables V) ∧
  (∀ l, l ∈ mv_ids_variables V →
        VRef l ∈ mv_variables V ∧ kind_of <$> heap st !! l = Some KVariable) ∧
  (∀ v, v ∈ mv_metrics V → ∃ l, v = VRef l ∧ l ∈ mv_ids_metrics V) ∧
  (∀ l, l ∈ mv_ids_metrics V →
        VRef l ∈ mv_metrics V ∧ kind_of <$> heap st !! l = Some KMetric).

(** Every object of the store [h] is still there in [h'], as an object of
    the same kind. *)
Definition kinds_kept (h h' : list obj) : Prop :=
  ∀ l k, kind_of <$> h !! l = Some k → kind_of <$> h' !! l = Some k.

(** The attributes [Metric.__init__] leaves on an instance whose store
    had [k] objects. *)
Definition attrs_after_init (attrs : gmap string value) (dtype name : value)
    (k : nat) : gmap string value :=
  <["_tracker" := VRef (k + 2)%nat]>
    (<["_variables" := VRef (k + 1)%nat]>
       (<["_metrics" := VRef k]>
          (<["_dtype" := dtype]> (<["name" := name]> attrs)))).

Definition view_after_init (c : string) (attrs : gmap string value)
    (dtype name : value) (k : nat) : MetricView :=
  mkView c (attrs_after_init attrs dtype name k) (k + 1)%nat k (k + 2)%nat [] [] ∅ ∅.

(** The name [Metric.__init__] gives an instance of class [c]: the
    argument when it is truthy, a name from [auto_name] otherwise, which
    uses up one number of the naming utility. *)
Definition init_name `{E : Collaborators} (c : string) (st : state) (name : value)
    : value :=
  if truthy st name then name else VStr (auto_name_format c (name_uid st)).

Definition init_uid (st : state) (name : value) : nat :=
  if truthy st name then name_uid st else S (name_uid st).

(** The state [Metric.__init__] leaves: the instance at [self] has its
    five attributes, and the two lists and the tracker are the last three
    objects of the store. *)
Definition state_after_init (st : state) (self : loc) (c : string)
    (attrs : gmap string value) (dtype name : value) (uid : nat) : state :=
  mkState
    (<[self := OMetric c (attrs_after_init attrs dtype name (length (heap st)))]>
       (heap st) ++
     [OList []; OList [];
      OTracker (mkTracker (length (heap st) + 1)%nat (length (heap st)) ∅ ∅)])
    uid.


(** A value that is not a reference and holds none: nothing in it for the
    tracker to register. *)
Definition plain_value (v : value) : bool :=
  match v with
  | VNone | VBool _ | VInt _ | VStr _ => true
  | VRef _ | VTuple _ => false
  end.


(** Every object of [st] is in [st'], unchanged. *)
Definition objects_kept (st st' : state) : Prop :=
  ∀ l o, heap st !! l = Some o → heap st' !! l = Some o.

(** ** Proof automation *)

(** Lookups in a store after updates at other places. *)
Ltac distinct := let H := fresh in intros H; subst; congruence.
Ltac bounds :=
  repeat match goal with
  | H : ?h !! ?l = Some _ |- _ =>
      lazymatch goal with
      | _ : (l < length h)%nat |- _ => fail
      | _ => pose proof (lookup_lt_Some _ _ _ H)
      end
  end.
Ltac in_range := rewrite ?length_insert, ?length_app; simpl; lia.
Ltac in_heap :=
  bounds; simpl;
  repeat first
    [ rewrite list_lookup_insert_ne by distinct
    | rewrite list_lookup_insert_eq by in_range
    | rewrite lookup_app_l by in_range ];
  try done; try eassumption.


(** ** A concrete program, to run the definitions on

    The class table has the plain [Metric] and a counter that overrides
    [update_state] and [result]; the initializers are "zeros" and
    "ones". *)

Definition counter_update_state (self : loc) (args : list value)
    (kwargs : gmap string value) : M unit :=
  total <- getattr (VRef self) "total" ;;
  fun st =>
    match total with
    | VRef l =>
        match get_obj l st with
        | Some (OVariable V) =>
            set_obj l (OVariable (mkVariable (var_shape V) (var_dtype V)
                         (var_trainable V) (var_name V)
                         (List.map (Z.add (Z.of_nat (length args))) (var_value V)))) st
        | _ => (st, inl (AttributeError "assign"))
        end
    | _ => (st, inl (AttributeError "assign"))
    end.

Definition counter_result (self : loc) : M value :=
  getattr (VRef self) "total".

Definition demo_classes (c : string) : MetricClass :=
  if String.eqb c "Counter"
  then mkMetricClass None (Some counter_update_state) (Some counter_result)
  else mkMetricClass None None None.

Definition demo_initializers_get (v : value) : exn + Initializer :=
  match v with
  | VStr "zeros" => inr (fun _ _ => [0])
  | VStr "ones" => inr (fun _ _ => [1])
  | _ => inl (ValueError "Could not interpret initializer identifier")
  end.

Definition demo : Collaborators :=
  mkCollaborators demo_classes (fun prefix n => (prefix ++ "_")%string) demo_initializers_get.

Definition empty_state : state := mkState [] 0.

(** The state reached by running [prog] from the empty state. *)
Definition run {A} (prog : M A) : state := fst (prog empty_state).

(** One plain metric, at location 0, with its lists at 1 and 2 and its
    tracker at 3. *)
Definition one_metric : state :=
  Eval vm_compute in run (@construct demo "Metric" [] ∅).

(** The same with one variable "total" (location 4) created by
    [add_variable] from "ones". *)
Definition one_metric_one_variable : state :=
  Eval vm_compute in
    fst (@add_variable demo 0%nat (VTuple []) (VStr "ones") VNone (VStr "total")
           one_metric).

(** An instance of [Metric] whose [__init__] never ran: no attribute. *)
Definition skipped_init : state := mkState [OMetric "Metric" ∅] 0.

(** A chain: the metric at 0 has the child at 4, which has the child at
    8, which owns the variable at 12 (created from "ones"). *)
Definition chain_program : M unit :=
  @construct demo "Metric" [] ∅ ;;;
  @construct demo "Metric" [] ∅ ;;;
  @construct demo "Metric" [] ∅ ;;;
  @add_variable demo 8%nat (VTuple []) (VStr "ones") VNone (VStr "total") ;;;
  __setattr__ 4%nat "inner" (VRef 8%nat) ;;;
  __setattr__ 0%nat "inner" (VRef 4%nat).

Definition chain : state := Eval vm_compute in run chain_program.

(** A metric at 0 with its own variable at 8 and a child at 4 that owns
    the variable at 9, both created from "ones". *)
Definition parent_child_program : M unit :=
  @construct demo "Metric" [] ∅ ;;;
  @construct demo "Metric" [] ∅ ;;;
  @add_variable demo 0%nat (VTuple []) (VStr "ones") VNone (VStr "a") ;;;
  @add_variable demo 4%nat (VTuple []) (VStr "ones") VNone (VStr "b") ;;;
  __setattr__ 0%nat "inner" (VRef 4%nat).

Definition parent_child : state := Eval vm_compute in run parent_child_program.

(** A counter (class "Counter") at 0 with its variable "total" at 4,
    assigned to the attribute [total]. *)
Definition counter_program : M unit :=
  @construct demo "Counter" [] ∅ ;;;
  total <- @add_variable demo 0%nat (VTuple []) (VStr "zeros") VNone (VStr "total") ;;
  __setattr__ 0%nat "total" total.

Definition counter : state := Eval vm_compute in run counter_program.




(** Three generations, each with a variable of its own created from
    "ones": the metric at 0 owns the variable at 12, its child at 4 owns
    the one at 13, and the child of that, at 8, owns the one at 14. *)
Definition family_program : M unit :=
  @construct demo "Metric" [] ∅ ;;;
  @construct demo "Metric" [] ∅ ;;;
  @construct demo "Metric" [] ∅ ;;;
  @add_variable demo 0%nat (VTuple []) (VStr "ones") VNone (VStr "a") ;;;
  @add_variable demo 4%nat (VTuple []) (VStr "ones") VNone (VStr "b") ;;;
  @add_variable demo 8%nat (VTuple []) (VStr "ones") VNone (VStr "c") ;;;
  __setattr__ 4%nat "inner" (VRef 8%nat) ;;;
  __setattr__ 0%nat "inner" (VRef 4%nat).

Definition family : state := Eval vm_compute in run family_program.






(** A second class table: "Forgetful" has an [__init__] that does not
    call [super().__init__()], "OnlyUpdate" overrides [update_state] and
    not [result]. *)
Definition more_classes (c : string) : MetricClass :=
  if String.eqb c "Forgetful"
  then mkMetricClass (Some (fun _ _ _ => ret tt)) None None
  else if String.eqb c "OnlyUpdate"
  then mkMetricClass None (Some counter_update_state) None
  else demo_classes c.

Definition demo_more : Collaborators :=
  mkCollaborators more_classes (fun prefix n => (prefix ++ "_")%string)
    demo_initializers_get.

(** A metric at 0 whose child, at 4, is a "Forgetful" instance: it has no
    attribute at all. *)
Definition forgetful_child_program : M unit :=
  @construct demo_more "Metric" [] ∅ ;;;
  @construct demo_more "Forgetful" [] ∅ ;;;
  __setattr__ 0%nat "inner" (VRef 4%nat).

Definition forgetful_child : state := Eval vm_compute in run forgetful_child_program.

(** An "OnlyUpdate" metric at 0 with its variable "total" at 4. *)
Definition only_update_program : M unit :=
  @construct demo_more "OnlyUpdate" [] ∅ ;;;
  total <- @add_variable demo_more 0%nat (VTuple []) (VStr "zeros") VNone (VStr "total") ;;
  __setattr__ 0%nat "total" total.

Definition only_update : state := Eval vm_compute in run only_update_program.

(** * Properties *)

Lemma bind_ok {A B} (m : M A) (k : A → M B) st st1 a :
  m st = (st1, inr a) → bind m k st = k a st1.
Proof. intros H. unfold bind. by rewrite H. Qed.

Lemma bind_raise {A B} (m : M A) (k : A → M B) st st1 e :
  m st = (st1, inl e) → bind m k st = (st1, inl e).
Proof. intros H. unfold bind. by rewrite H. Qed.

(** One statement of a method body that ends normally. *)
Tactic Notation "step" "by" tactic(tac) := erewrite bind_ok; [| by tac].

Section Errors.
Context `{E : Collaborators}.

Lemma check_super_called_skipped st self :
  hasattr st self "_tracker" = false →
  _check_super_called self st = (st, inl forgot_super).
Proof. intros H. unfold _check_super_called. by rewrite H. Qed.

Lemma check_super_called_ok st self :
  hasattr st self "_tracker" = true →
  _check_super_called self st = (st, inr tt).
Proof. intros H. unfold _check_super_called. by rewrite H. Qed.

Lemma class_name_metric st self c attrs :
  heap st !! self = Some (OMetric c attrs) →
  class_name self st = (st, inr c).
Proof. intros H. unfold class_name, get_obj. by rewrite H. Qed.

(** C2.  On an instance whose base construction has not completed (it has
    no [_tracker] attribute), [add_variable] and [__call__] raise the
    RuntimeError about the forgotten [super().__init__()], whatever the
    arguments and whatever the subclass overrides, and the state is the
    one before the call: no variable was created, neither [update_state]
    nor [result] ran. *)
Theorem construction_check_raises st self shape initializer dtype name args kwargs :
  hasattr st self "_tracker" = false →
  add_variable self shape initializer dtype name st = (st, inl forgot_super) ∧
  __call__ self args kwargs st = (st, inl forgot_super).
Proof.
  intros H. split.
  - unfold add_variable, bind. by rewrite check_super_called_skipped.
  - unfold __call__, bind. by rewrite check_super_called_skipped.
Qed.

(** C3.  For a metric whose class overrides neither [update_state] nor
    [result], [update_state] with any arguments raises
    NotImplementedError and so does [result]; the state is left as it
    was. *)
Theorem default_methods_not_implemented st self c attrs args kwargs :
  heap st !! self = Some (OMetric c attrs) →
  cls_update_state (classes c) = None →
  cls_result (classes c) = None →
  update_state self args kwargs st = (st, inl NotImplementedError) ∧
  result self st = (st, inl NotImplementedError).
Proof.
  intros Hself Hu Hr. unfold update_state, result, bind.
  rewrite (class_name_metric _ _ _ _ Hself), Hu, Hr. done.
Qed.

(** C5.  [__call__] proceeds only when construction has completed, and
    then it is [update_state] on the same arguments followed by [result]:
    when [update_state] raises, the call raises the same exception from
    the same state; otherwise the call returns what [result] returns from
    the state [update_state] left.  Without completed construction it
    raises the RuntimeError and runs neither. *)
Theorem call_is_update_then_result st self args kwargs :
  __call__ self args kwargs st =
    if hasattr st self "_tracker" then
      match update_state self args kwargs st with
      | (st1, inl e) => (st1, inl e)
      | (st1, inr _) => result self st1
      end
    else (st, inl forgot_super).
Proof.
  unfold __call__. destruct (hasattr st self "_tracker") eqn:H.
  - by rewrite (bind_ok _ _ _ _ _ (check_super_called_ok _ _ H)).
  - by rewrite (bind_raise _ _ _ _ _ (check_super_called_skipped _ _ H)).
Qed.

(** C8.  [add_weight] is [add_variable] called with the same positional
    and keyword arguments: same state, same result, same exception.  In
    particular with the four parameters given in order, with the two
    optional ones left out, and with all of them given by keyword. *)
Theorem add_weight_is_add_variable st self :
  (∀ args kwargs,
     add_weight self args kwargs st = call_add_variable self args kwargs st) ∧
  (∀ shape initializer dtype name,
     add_weight self [shape; initializer; dtype; name] ∅ st =
     add_variable self shape initializer dtype name st) ∧
  (∀ shape initializer,
     add_weight self [shape; initializer] ∅ st =
     add_variable self shape initializer VNone VNone st) ∧
  (∀ shape initializer dtype name,
     add_weight self []
       (<["shape" := shape]> (<["initializer" := initializer]>
          (<["dtype" := dtype]> (<["name" := name]> ∅)))) st =
     add_variable self shape initializer dtype name st).
Proof.
  repeat split; reflexivity.
Qed.

(** C9.  On an instance whose base construction was skipped, the
    inherited [update_state] and [result] raise NotImplementedError, not
    the RuntimeError of the construction check, which [__call__] and
    [add_variable] raise on the same instance. *)
Theorem default_methods_skip_construction_check
    st self c attrs args kwargs shape initializer dtype name :
  heap st !! self = Some (OMetric c attrs) →
  attrs !! "_tracker" = None →
  cls_update_state (classes c) = None →
  cls_result (classes c) = None →
  update_state self args kwargs st = (st, inl NotImplementedError) ∧
  result self st = (st, inl NotImplementedError) ∧
  NotImplementedError ≠ forgot_super ∧
  __call__ self args kwargs st = (st, inl forgot_super) ∧
  add_variable self shape initializer dtype name st = (st, inl forgot_super).
Proof.
  intros Hself Ht Hu Hr.
  assert (Hh : hasattr st self "_tracker" = false).
  { unfold hasattr, get_obj. rewrite Hself. apply bool_decide_eq_false.
    rewrite Ht. by intros [? ?]. }
  unfold update_state, result, __call__, add_variable, bind.
  rewrite (class_name_metric _ _ _ _ Hself), Hu, Hr.
  rewrite check_super_called_skipped by done. done.
Qed.

End Errors.

(** ** Reading the registries *)

Lemma getattr_state m name st st' r :
  getattr m name st = (st', r) → st' = st.
Proof.
  unfold getattr. intros H.
  destruct m; try (by inversion H).
  destruct (get_obj l st) as [[]|]; try (by inversion H).
  destruct (attrs !! name); by inversion H.
Qed.

Lemma list_items_state v st st' r :
  list_items v st = (st', r) → st' = st.
Proof.
  unfold list_items. intros H.
  destruct v; try (by inversion H).
  destruct (get_obj l st) as [[]|]; by inversion H.
Qed.

Lemma read_list_attr_Some st m name items :
  read_list_attr st m name = Some items →
  ∃ lst, getattr m name st = (st, inr lst) ∧ list_items lst st = (st, inr items).
Proof.
  unfold read_list_attr. intros H.
  destruct (getattr m name st) as [st1 [e|lst]] eqn:Hg; [done|].
  destruct (list_items lst st) as [st2 [e|items']] eqn:Hl; [done|].
  apply getattr_state in Hg as Hst1. apply list_items_state in Hl as Hst2.
  simplify_eq. eauto.
Qed.

Lemma read_list_attr_frame st st' m name items :
  same_but_variables st st' →
  read_list_attr st m name = Some items →
  read_list_attr st' m name = Some items.
Proof.
  intros Hf. unfold read_list_attr, getattr, list_items, get_obj.
  destruct m as [| | | |l|]; try done.
  destruct (heap st !! l) as [[|c attrs| |]|] eqn:Hl; try done.
  rewrite (Hf _ _ Hl) by done.
  destruct (attrs !! name) as [[| | | |l'|]|]; try done.
  destruct (heap st !! l') as [[| |items'|]|] eqn:Hl'; try done.
  by rewrite (Hf _ _ Hl').
Qed.

Lemma children_variables_frame st st' metrics cvs :
  same_but_variables st st' →
  children_variables st metrics = Some cvs →
  children_variables st' metrics = Some cvs.
Proof.
  intros Hf. unfold children_variables. rewrite !mapM_Some.
  intros H. eapply Forall2_impl; [exact H|].
  intros m vs. apply read_list_attr_frame, Hf.
Qed.

Lemma extend_with_children_spec st metrics : ∀ (acc : list value) cvs,
  children_variables st metrics = Some cvs →
  extend_with_children acc metrics st = (st, inr (acc ++ concat cvs)).
Proof.
  unfold children_variables.
  induction metrics as [|m metrics IH]; intros acc cvs H.
  - simpl in H. injection H as <-. simpl. by rewrite app_nil_r.
  - apply mapM_Some in H. inversion H as [|? vs ? cvs' Hm Hrest]; subst.
    apply read_list_attr_Some in Hm as (lst & Hg & Hl).
    simpl. unfold bind. rewrite Hg, Hl.
    rewrite (IH (acc ++ vs) cvs') by by apply mapM_Some.
    by rewrite <-app_assoc.
Qed.

Lemma variables_spec st self own metrics cvs :
  own_variables st (VRef self) = Some own →
  own_metrics st (VRef self) = Some metrics →
  children_variables st metrics = Some cvs →
  variables self st = (st, inr (own ++ concat cvs)).
Proof.
  intros Ho Hm Hc.
  apply read_list_attr_Some in Ho as (lo & Hgo & Hlo).
  apply read_list_attr_Some in Hm as (lm & Hgm & Hlm).
  unfold variables, bind. rewrite Hgo, Hlo, Hgm, Hlm.
  by apply extend_with_children_spec.
Qed.

(** C1, as the code has it.  [variables] returns the metric's own
    variables, in the order of their registration, followed by the own
    variables of each of its child metrics, in the order of the children;
    the state is not changed.  With a single child the result is the own
    variables followed by the child's. *)
Theorem variables_own_then_children st self own metrics cvs :
  own_variables st (VRef self) = Some own →
  own_metrics st (VRef self) = Some metrics →
  children_variables st metrics = Some cvs →
  variables self st = (st, inr (own ++ concat cvs)) ∧
  (∀ child vs, metrics = [child] → own_variables st child = Some vs →
     variables self st = (st, inr (own ++ vs))).
Proof.
  intros Ho Hm Hc. split; [by eapply variables_spec|].
  intros child vs -> Hv.
  rewrite (variables_spec st self own [child] [vs]); try done.
  - simpl. by rewrite app_nil_r.
  - unfold children_variables. simpl. by rewrite Hv.
Qed.

(** ** Resetting *)

Lemma reads_zero_zero_variable st l V :
  heap st !! l = Some (OVariable (zero_variable V)) →
  reads_zero st (VRef l) = true.
Proof.
  intros H. unfold reads_zero, get_obj. rewrite H. simpl.
  induction (var_value V); simpl; auto.
Qed.

Lemma zero_variable_idemp V : zero_variable (zero_variable V) = zero_variable V.
Proof. unfold zero_variable. simpl. by rewrite List.map_map. Qed.

Lemma assign_zero_variable st l V :
  heap st !! l = Some (OVariable V) →
  assign_zero (VRef l) st =
    (mkState (<[l := OVariable (zero_variable V)]> (heap st)) (name_uid st), inr tt).
Proof. intros H. unfold assign_zero, get_obj. by rewrite H. Qed.

(** The loop of [reset_state] over variables at the locations [ls]: it
    ends normally, the listed variables are zeroed and nothing else
    changes. *)
Lemma for_each_assign_zero ls : ∀ st,
  Forall (fun l => is_variable st (VRef l) = true) ls →
  ∃ st', for_each assign_zero (VRef <$> ls) st = (st', inr tt) ∧
    name_uid st' = name_uid st ∧
    (∀ l, l ∈ ls → ∃ V, heap st !! l = Some (OVariable V) ∧
                        heap st' !! l = Some (OVariable (zero_variable V))) ∧
    (∀ l, l ∉ ls → heap st' !! l = heap st !! l).
Proof.
  induction ls as [|l0 ls IH]; intros st Hv.
  - exists st. repeat split. intros l Hl. by apply elem_of_nil in Hl.
  - inversion Hv as [|? ? H0 Hrest]; subst.
    unfold is_variable, get_obj in H0.
    destruct (heap st !! l0) as [[V0| | |]|] eqn:Hl0; try done.
    set (st1 := mkState (<[l0 := OVariable (zero_variable V0)]> (heap st)) (name_uid st)).
    assert (Hlt : (l0 < length (heap st))%nat) by by eapply lookup_lt_Some.
    destruct (IH st1) as (st' & Hrun & Huid & Hin & Hout).
    { eapply Forall_impl; [exact Hrest|]. intros l. unfold is_variable, get_obj. simpl.
      destruct (decide (l = l0)) as [->|Hne].
      - by rewrite list_lookup_insert_eq.
      - by rewrite list_lookup_insert_ne. }
    exists st'. split; [|split; [|split]].
    + simpl. unfold bind. rewrite (assign_zero_variable _ _ _ Hl0). exact Hrun.
    + by rewrite Huid.
    + intros l Hl. destruct (decide (l ∈ ls)) as [Hls|Hls].
      * destruct (Hin l Hls) as (V1 & H1 & H1'). simpl in H1.
        destruct (decide (l = l0)) as [->|Hne].
        -- rewrite list_lookup_insert_eq in H1 by done. simplify_eq.
           exists V0. by rewrite H1', zero_variable_idemp.
        -- rewrite list_lookup_insert_ne in H1 by done. eauto.
      * apply elem_of_cons in Hl as [->|Hl]; [|done].
        exists V0. split; [done|]. rewrite (Hout l0 Hls). simpl.
        by rewrite list_lookup_insert_eq.
    + intros l Hl. apply not_elem_of_cons in Hl as [Hne Hls].
      rewrite (Hout l Hls). simpl. by rewrite list_lookup_insert_ne.
Qed.

Lemma all_variables_refs st vs :
  Forall (fun v => is_variable st v = true) vs →
  ∃ ls, vs = VRef <$> ls ∧ Forall (fun l => is_variable st (VRef l) = true) ls.
Proof.
  induction 1 as [|v vs Hv _ (ls & -> & Hls)].
  - by exists [].
  - destruct v as [| | | |l|]; try done. exists (l :: ls). split; [done|]. by constructor.
Qed.

(** C4, as the code has it.  On a metric whose registries hold variables,
    [reset_state] ends normally and afterwards every variable that
    [variables] returns, the metric's own and those of its child metrics,
    holds zero; the registries themselves are as before, and every object
    that is not one of those variables is unchanged: a variable that
    [variables] does not return, such as one of a deeper descendant that
    is registered nowhere nearer, holds what it held. *)
Theorem reset_state_zeroes_variables st self own metrics cvs :
  own_variables st (VRef self) = Some own →
  own_metrics st (VRef self) = Some metrics →
  children_variables st metrics = Some cvs →
  Forall (fun v => is_variable st v = true) (own ++ concat cvs) →
  ∃ st', reset_state self st = (st', inr tt) ∧
    (∀ v, v ∈ own ++ concat cvs → reads_zero st' v = true) ∧
    variables self st' = (st', inr (own ++ concat cvs)) ∧
    own_variables st' (VRef self) = Some own ∧
    own_metrics st' (VRef self) = Some metrics ∧
    children_variables st' metrics = Some cvs ∧
    same_but_variables st st' ∧
    (∀ l, VRef l ∉ own ++ concat cvs → heap st' !! l = heap st !! l).
Proof.
  intros Ho Hm Hc Hv.
  destruct (all_variables_refs _ _ Hv) as (ls & Hls & Hvl).
  destruct (for_each_assign_zero ls st Hvl) as (st' & Hrun & _ & Hin & Hout).
  assert (Hf : same_but_variables st st').
  { intros l o Hl Ho'. destruct (decide (l ∈ ls)) as [Hi|Hi].
    - destruct (Hin l Hi) as (V & HV & _). rewrite Hl in HV.
      injection HV as ->. by destruct (Ho' V).
    - by rewrite (Hout l Hi). }
  pose proof (read_list_attr_frame _ _ _ _ _ Hf Ho) as Ho'.
  pose proof (read_list_attr_frame _ _ _ _ _ Hf Hm) as Hm'.
  pose proof (children_variables_frame _ _ _ _ Hf Hc) as Hc'.
  exists st'. split; [|split; [|split; [|split; [|split; [|split; [|split]]]]]];
    try done.
  - unfold reset_state, bind. rewrite (variables_spec _ _ _ _ _ Ho Hm Hc).
    by rewrite Hls.
  - intros v. rewrite Hls. intros Hel.
    apply list_elem_of_fmap in Hel as (l & -> & Hl).
    destruct (Hin l Hl) as (V & _ & HV). by eapply reads_zero_zero_variable.
  - by apply (variables_spec _ _ _ metrics).
  - intros l Hl. apply Hout. intros Hi. apply Hl. rewrite Hls.
    by apply list_elem_of_fmap_2.
Qed.

(** ** Steps on the store *)

Lemma getattr_metric st l c attrs name v :
  heap st !! l = Some (OMetric c attrs) →
  attrs !! name = Some v →
  getattr (VRef l) name st = (st, inr v).
Proof. intros Hl Hn. unfold getattr, get_obj. by rewrite Hl, Hn. Qed.

Lemma hasattr_metric st l c attrs name v :
  heap st !! l = Some (OMetric c attrs) →
  attrs !! name = Some v →
  hasattr st l name = true.
Proof.
  intros Hl Hn. unfold hasattr, get_obj. rewrite Hl, Hn.
  apply bool_decide_eq_true. eauto.
Qed.

Lemma hasattr_missing st l c attrs name :
  heap st !! l = Some (OMetric c attrs) →
  attrs !! name = None →
  hasattr st l name = false.
Proof.
  intros Hl Hn. unfold hasattr, get_obj. rewrite Hl, Hn.
  apply bool_decide_eq_false. by intros [? ?].
Qed.

Lemma object_setattr_metric st l c attrs name v :
  heap st !! l = Some (OMetric c attrs) →
  read_only_property name = false →
  object_setattr l name v st =
    (mkState (<[l := OMetric c (<[name := v]> attrs)]> (heap st)) (name_uid st), inr tt).
Proof. intros Hl Hp. unfold object_setattr, get_obj. by rewrite Hl, Hp. Qed.

Lemma list_append_list st l items x :
  heap st !! l = Some (OList items) →
  list_append l x st =
    (mkState (<[l := OList (items ++ [x])]> (heap st)) (name_uid st), inr tt).
Proof. intros Hl. unfold list_append, get_obj. by rewrite Hl. Qed.

Lemma constructed_hasattr st self V :
  constructed st self V → hasattr st self "_tracker" = true.
Proof. intros (Hs & _ & _ & Ht & _). by eapply hasattr_metric. Qed.

Lemma constructed_own_variables st self V :
  constructed st self V → own_variables st (VRef self) = Some (mv_variables V).
Proof.
  intros (Hs & Hv & _ & _ & Hlv & _).
  unfold own_variables, read_list_attr.
  rewrite (getattr_metric _ _ _ _ _ _ Hs Hv). unfold list_items, get_obj.
  by rewrite Hlv.
Qed.

Lemma constructed_own_metrics st self V :
  constructed st self V → own_metrics st (VRef self) = Some (mv_metrics V).
Proof.
  intros (Hs & _ & Hm & _ & _ & Hlm & _).
  unfold own_metrics, read_list_attr.
  rewrite (getattr_metric _ _ _ _ _ _ Hs Hm). unfold list_items, get_obj.
  by rewrite Hlm.
Qed.

Section Registration.
Context `{E : Collaborators}.

(** [add_variable] on a constructed metric, when the initializer is
    known: the new variable is allocated at the end of the store, the list
    behind [_variables] gets it as last item and the tracker records its
    identity. *)
Lemma add_variable_spec st self V shape initializer init dtype name :
  constructed st self V →
  initializers_get initializer = inr init →
  let x := length (heap st) in
  let st' :=
    mkState
      (<[mv_tracker_at V :=
           OTracker (mkTracker (mv_variables_at V) (mv_metrics_at V)
                       ({[x]} ∪ mv_ids_variables V) (mv_ids_metrics V))]>
         (<[mv_variables_at V := OList (mv_variables V ++ [VRef x])]>
            (heap st ++ [OVariable (mkVariable shape dtype false name
                                      (init shape dtype))])))
      (name_uid st) in
  add_variable self shape initializer dtype name st = (st', inr (VRef x)) ∧
  constructed st' self (view_add_variable V x).
Proof.
  intros HV Hi x st'. pose proof HV as (Hs & Hv & Hm & Ht & Hlv & Hlm & Htr & Hne).
  split.
  - unfold add_variable.
    step by eapply check_super_called_ok, constructed_hasattr.
    step by (unfold lift; rewrite Hi).
    step by (unfold new_Variable, alloc).
    step by (eapply getattr_metric; [in_heap | done]).
    step by (eapply list_append_list; in_heap).
    step by (eapply getattr_metric; [in_heap | done]).
    unfold bind, stored_ids_variables_add, get_obj. in_heap. by rewrite Htr.
  - unfold constructed, st'. simpl. repeat split; in_heap.
Qed.

End Registration.

(** ** Registration through attribute assignment *)

Lemma reserved_false a :
  reserved a = false → a ≠ "_variables" ∧ a ≠ "_metrics" ∧ a ≠ "_tracker".
Proof.
  unfold reserved. intros H. apply bool_decide_eq_false in H.
  repeat split; intros ->; apply H; set_solver.
Qed.

Lemma constructed_set_attr st self V a v :
  constructed st self V →
  reserved a = false →
  constructed
    (mkState (<[self := OMetric (mv_class V) (<[a := v]> (mv_attrs V))]> (heap st))
       (name_uid st))
    self (view_set_attr V a v).
Proof.
  intros (Hs & Hv & Hm & Ht & Hlv & Hlm & Htr & Hne) Ha.
  apply reserved_false in Ha as (? & ? & ?).
  unfold constructed. simpl. rewrite !lookup_insert_ne by done.
  repeat split; in_heap.
Qed.

Lemma track_ref_new_variable st self V x X :
  constructed st self V →
  heap st !! x = Some (OVariable X) →
  x ∉ mv_ids_variables V →
  let st' :=
    mkState
      (<[mv_tracker_at V :=
           OTracker (mkTracker (mv_variables_at V) (mv_metrics_at V)
                       ({[x]} ∪ mv_ids_variables V) (mv_ids_metrics V))]>
         (<[mv_variables_at V := OList (mv_variables V ++ [VRef x])]> (heap st)))
      (name_uid st) in
  track_ref (mv_tracker_at V) x st = (st', inr tt) ∧
  constructed st' self (view_add_variable V x).
Proof.
  intros (Hs & Hv & Hm & Ht & Hlv & Hlm & Htr & Hne) Hx Hnew st'. split.
  - unfold track_ref, get_obj. rewrite Htr, Hx. simpl.
    rewrite decide_False by done. unfold add_to_store_variables. simpl.
    step by (eapply list_append_list; in_heap). done.
  - unfold constructed, st'. simpl. repeat split; in_heap.
Qed.


Lemma track_ref_known_variable st self V x X :
  constructed st self V →
  heap st !! x = Some (OVariable X) →
  x ∈ mv_ids_variables V →
  track_ref (mv_tracker_at V) x st = (st, inr tt).
Proof.
  intros (Hs & Hv & Hm & Ht & Hlv & Hlm & Htr & Hne) Hx Hold.
  unfold track_ref, get_obj. rewrite Htr, Hx. simpl. by rewrite decide_True.
Qed.




Lemma kinds_kept_trans h1 h2 h3 :
  kinds_kept h1 h2 → kinds_kept h2 h3 → kinds_kept h1 h3.
Proof. intros H12 H23 l k H. by apply H23, H12. Qed.










Section Frame.
Context `{E : Collaborators}.

Lemma add_variable_succeeds st st' self shape initializer dtype name r :
  hasattr st self "_tracker" = true →
  add_variable self shape initializer dtype name st = (st', inr r) →
  ∃ init, initializers_get initializer = inr init.
Proof.
  intros Hh. unfold add_variable.
  rewrite (bind_ok _ _ _ _ _ (check_super_called_ok _ _ Hh)).
  destruct (initializers_get initializer) as [e|init] eqn:Hi; [|by eauto].
  unfold bind, lift, raise. by intros [= _ ?].
Qed.


(** C10.  A call of [add_variable] on a constructed metric that ends
    normally returns a reference to a new object, a variable that is not
    trainable and has the shape, dtype and name that were passed; that
    variable is the last item of the metric's own registry, after the
    items that were there; the metric's class, every attribute of it
    (name and dtype among them) and its list of child metrics are as
    before, and so is every object of the store other than the registry
    list and the tracker. *)
Theorem add_variable_frame st self V shape initializer dtype name st' r :
  constructed st self V →
  add_variable self shape initializer dtype name st = (st', inr r) →
  r = VRef (length (heap st)) ∧
  heap st !! length (heap st) = None ∧
  (∃ X, heap st' !! length (heap st) = Some (OVariable X) ∧
        var_trainable X = false ∧
        var_shape X = shape ∧ var_dtype X = dtype ∧ var_name X = name) ∧
  heap st' !! self = heap st !! self ∧
  own_variables st' (VRef self) = Some (mv_variables V ++ [r]) ∧
  own_metrics st' (VRef self) = Some (mv_metrics V) ∧
  (∀ l o, heap st !! l = Some o →
          l ≠ mv_variables_at V → l ≠ mv_tracker_at V →
          heap st' !! l = Some o) ∧
  length (heap st') = S (length (heap st)) ∧
  name_uid st' = name_uid st.
Proof.
  intros HV Hrun.
  destruct (add_variable_succeeds _ _ _ _ _ _ _ _ (constructed_hasattr _ _ _ HV) Hrun)
    as [init Hi].
  destruct (add_variable_spec _ _ _ shape _ _ dtype name HV Hi) as [Hrun' HV'].
  rewrite Hrun in Hrun'. injection Hrun' as -> ->.
  pose proof HV as (Hs & _ & _ & _ & Hlv & _ & Htr & _).
  split; [done|]. split; [apply lookup_ge_None_2; lia|].
  split; [|split; [|split; [|split; [|split; [|split]]]]].
  - eexists. split.
    { bounds. simpl. rewrite !list_lookup_insert_ne by lia.
      by rewrite list_lookup_middle. }
    done.
  - in_heap.
  - apply (constructed_own_variables _ _ _ HV').
  - apply (constructed_own_metrics _ _ _ HV').
  - intros l o Hl Hne1 Hne2. in_heap.
  - simpl. rewrite !length_insert, length_app. simpl. lia.
  - done.
Qed.

End Frame.



Section Idempotence.
Context `{E : Collaborators}.


End Idempotence.

(** ** Construction *)

Lemma setattr_untracked st self c attrs a v :
  heap st !! self = Some (OMetric c attrs) →
  attrs !! "_tracker" = None →
  read_only_property a = false →
  __setattr__ self a v st =
    (mkState (<[self := OMetric c (<[a := v]> attrs)]> (heap st)) (name_uid st), inr tt).
Proof.
  intros Hs Ht Hp. unfold __setattr__.
  rewrite (hasattr_missing _ _ _ _ _ Hs Ht). by apply object_setattr_metric.
Qed.

Section Construction.
Context `{E : Collaborators}.

(** [Metric.__init__] on an instance that has no tracker yet: three
    objects are allocated, the two lists and the tracker, and five
    attributes are set. *)
Lemma init_spec_any_name st self c attrs dtype name :
  heap st !! self = Some (OMetric c attrs) →
  attrs !! "_tracker" = None →
  __init__ self dtype name st =
    (state_after_init st self c attrs dtype (init_name c st name) (init_uid st name),
     inr tt).
Proof.
  intros Hs Ht. bounds. unfold __init__, state_after_init.
  set (k := length (heap st)).
  assert (Hname :
    (fun st => if truthy st name then ret name st
               else (c <- class_name self ;; auto_name c) st) st =
    (mkState (heap st) (init_uid st name), inr (init_name c st name))).
  { unfold init_name, init_uid. destruct (truthy st name).
    - by destruct st.
    - unfold bind, class_name, get_obj. by rewrite Hs. }
  step by (exact Hname).
  generalize (init_name c st name) (init_uid st name). intros n u.
  step by (eapply setattr_untracked; [in_heap|done|done]).
  step by (eapply setattr_untracked; [in_heap|by simplify_map_eq|done]).
  simpl. rewrite list_insert_insert_eq.
  step by (unfold alloc).
  simpl. rewrite length_insert. fold k.
  step by (eapply setattr_untracked;
           [simpl; rewrite lookup_app_l by in_range; in_heap|by simplify_map_eq
           |done]).
  simpl. rewrite insert_app_l by in_range. rewrite list_insert_insert_eq.
  step by (unfold alloc).
  simpl. rewrite length_app, length_insert. simpl. fold k.
  step by (eapply setattr_untracked;
           [simpl; rewrite <-app_assoc, lookup_app_l by in_range; in_heap
           |by simplify_map_eq|done]).
  simpl. rewrite <-!app_assoc. simpl.
  rewrite insert_app_l by in_range. rewrite list_insert_insert_eq.
  step by (eapply getattr_metric;
           [simpl; rewrite lookup_app_l by in_range; in_heap|by simplify_map_eq]).
  step by (eapply getattr_metric;
           [simpl; rewrite lookup_app_l by in_range; in_heap|by simplify_map_eq]).
  cbv beta iota.
  step by (unfold alloc).
  simpl. rewrite length_app, length_insert. simpl. fold k.
  erewrite setattr_untracked;
    [|simpl; rewrite <-app_assoc, lookup_app_l by in_range; in_heap
     |by simplify_map_eq|done].
  simpl. rewrite <-!app_assoc. simpl.
  rewrite insert_app_l by in_range. rewrite list_insert_insert_eq.
  done.
Qed.

(** What [Metric.__init__] leaves is a constructed metric with empty
    registries. *)
Lemma state_after_init_constructed st self c attrs dtype name uid :
  heap st !! self = Some (OMetric c attrs) →
  constructed (state_after_init st self c attrs dtype name uid) self
    (view_after_init c attrs dtype name (length (heap st))) ∧
  registered_once (state_after_init st self c attrs dtype name uid)
    (view_after_init c attrs dtype name (length (heap st))).
Proof.
  intros Hs. bounds. set (k := length (heap st)).
  assert (Hlen : ∀ o, length (<[self := o]> (heap st)) = k).
  { intros o. by rewrite length_insert. }
  split.
  - unfold constructed, state_after_init, view_after_init, attrs_after_init.
    simpl. fold k. repeat split; try (by simplify_map_eq); try lia.
    + rewrite lookup_app_l by (rewrite Hlen; lia).
      by rewrite list_lookup_insert_eq by lia.
    + rewrite lookup_app_r by (rewrite Hlen; lia). rewrite Hlen.
      by replace (k + 1 - k)%nat with 1%nat by lia.
    + rewrite lookup_app_r by (rewrite Hlen; lia). rewrite Hlen.
      by replace (k - k)%nat with 0%nat by lia.
    + rewrite lookup_app_r by (rewrite Hlen; lia). rewrite Hlen.
      by replace (k + 2 - k)%nat with 2%nat by lia.
  - unfold registered_once. simpl.
    split; [apply NoDup_nil_2|]. split; [apply NoDup_nil_2|].
    split; [intros v Hv; by apply elem_of_nil in Hv|].
    split; [intros l Hl; by apply not_elem_of_empty in Hl|].
    split; [intros v Hv; by apply elem_of_nil in Hv|].
    intros l Hl. by apply not_elem_of_empty in Hl.
Qed.

Lemma init_spec st self c attrs dtype name :
  heap st !! self = Some (OMetric c attrs) →
  attrs !! "_tracker" = None →
  truthy st name = true →
  __init__ self dtype name st =
    (state_after_init st self c attrs dtype name (name_uid st), inr tt).
Proof.
  intros Hs Ht Hn. rewrite (init_spec_any_name _ _ _ _ _ _ Hs Ht).
  unfold init_name, init_uid. by rewrite Hn.
Qed.

(** The name construction leaves is truthy in every later state, when the
    argument is [None] or a string and the naming utility never returns
    the empty string. *)
Lemma init_name_truthy st st' c name :
  (name = VNone ∨ ∃ s, name = VStr s) →
  (∀ prefix uid, auto_name_format prefix uid ≠ "") →
  truthy st' (init_name c st name) = true.
Proof.
  intros Hname Hauto.
  assert (Hgen : truthy st' (VStr (auto_name_format c (name_uid st))) = true).
  { simpl. apply negb_true_iff, String.eqb_neq, Hauto. }
  unfold init_name. destruct Hname as [->|[s ->]]; [done|].
  destruct (truthy st (VStr s)) eqn:Hs; done.
Qed.

(** [Metric()] for a class that inherits [Metric.__init__]: a constructed
    metric with empty registries, named by [auto_name]. *)
Lemma construct_default st c :
  cls_init (classes c) = None →
  let self := length (heap st) in
  let st0 := mkState (heap st ++ [OMetric c ∅]) (name_uid st) in
  let name := VStr (auto_name_format c (name_uid st)) in
  let st' := state_after_init st0 self c ∅ VNone name (S (name_uid st)) in
  construct c [] ∅ st = (st', inr (VRef self)) ∧
  constructed st' self (view_after_init c ∅ VNone name (length (heap st0))) ∧
  registered_once st' (view_after_init c ∅ VNone name (length (heap st0))) ∧
  getattr (VRef self) "name" st' = (st', inr name).
Proof.
  intros Hc self st0 name st'.
  assert (Hs : heap st0 !! self = Some (OMetric c ∅)).
  { unfold st0, self. simpl. by rewrite list_lookup_middle. }
  destruct (state_after_init_constructed st0 self c ∅ VNone name (S (name_uid st)) Hs)
    as [HV HR].
  split; [|split; [done|split; [done|]]].
  - unfold construct. step by (unfold alloc). rewrite Hc.
    assert (Hcall : call___init__ self [] ∅ st0 = (st', inr tt)).
    { unfold call___init__. erewrite bind_ok; [|reflexivity].
      cbv beta iota. by rewrite (init_spec_any_name _ _ _ _ _ _ Hs). }
    step by (exact Hcall). done.
  - pose proof HV as (Hs' & _). eapply getattr_metric; [exact Hs'|].
    unfold view_after_init, attrs_after_init. simpl. by simplify_map_eq.
Qed.

End Construction.

Lemma truthy_alloc_metric st c attrs u v :
  truthy (mkState (heap st ++ [OMetric c attrs]) u) v = truthy st v.
Proof.
  destruct v as [| | | |l|]; try done. unfold truthy, get_obj. simpl.
  destruct (heap st !! l) as [o|] eqn:Hl.
  - by rewrite (lookup_app_l_Some _ _ _ _ Hl).
  - apply lookup_ge_None in Hl.
    destruct (decide (l = length (heap st))) as [->|Hne].
    + by rewrite list_lookup_middle.
    + rewrite lookup_ge_None_2; [done|]. rewrite length_app. simpl. lia.
Qed.

Section RoundTrip.
Context `{E : Collaborators}.


End RoundTrip.

(** * The properties on the concrete program *)

(** The view of the metric at 0 in [one_metric_one_variable]. *)
Lemma one_metric_one_variable_view :
  ∃ attrs,
    constructed one_metric_one_variable 0%nat
      (mkView "Metric" attrs 2%nat 1%nat 3%nat [VRef 4%nat] [] {[4%nat]} ∅) ∧
    attrs !! "name" = Some (VStr "Metric_") ∧ attrs !! "_dtype" = Some VNone.
Proof. eexists. unfold constructed. simpl. repeat split; try reflexivity. lia. Qed.

Lemma variables_own_then_children_witness :
  variables 0%nat parent_child =
    (parent_child, inr ([VRef 8%nat] ++ concat [[VRef 9%nat]])) ∧
  (∀ child vs, [VRef 4%nat] = [child] → own_variables parent_child child = Some vs →
     variables 0%nat parent_child = (parent_child, inr ([VRef 8%nat] ++ vs))).
Proof.
  apply (variables_own_then_children parent_child 0%nat
           [VRef 8%nat] [VRef 4%nat] [[VRef 9%nat]]); reflexivity.
Defined.

(** C1, as stated, fails on [chain]: the metric at 0 has the child at 4,
    which has the child at 8, which owns the variable at 12, and
    [variables] of the metric at 0 does not return that variable. *)
Lemma variables_misses_grandchild :
  ¬ (∀ st top child grand v,
       VRef child ∈ default [] (own_metrics st (VRef top)) →
       VRef grand ∈ default [] (own_metrics st (VRef child)) →
       v ∈ default [] (own_variables st (VRef grand)) →
       ∃ vs, variables top st = (st, inr vs) ∧ v ∈ vs).
Proof.
  intros H.
  destruct (H chain 0%nat 4%nat 8%nat (VRef 12%nat)) as (vs & Hvs & Hin).
  - replace (own_metrics chain (VRef 0%nat)) with (Some [VRef 4%nat]) by reflexivity.
    apply list_elem_of_here.
  - replace (own_metrics chain (VRef 4%nat)) with (Some [VRef 8%nat]) by reflexivity.
    apply list_elem_of_here.
  - replace (own_variables chain (VRef 8%nat)) with (Some [VRef 12%nat]) by reflexivity.
    apply list_elem_of_here.
  - assert (Hrun : variables 0%nat chain = (chain, inr [])) by reflexivity.
    rewrite Hrun in Hvs. injection Hvs as <-. by apply elem_of_nil in Hin.
Qed.

Lemma construction_check_raises_witness :
  @add_variable demo 0%nat (VTuple []) (VStr "zeros") VNone (VStr "total")
    skipped_init = (skipped_init, inl forgot_super) ∧
  @__call__ demo 0%nat [VInt 1] ∅ skipped_init = (skipped_init, inl forgot_super).
Proof.
  apply (@construction_check_raises demo skipped_init 0%nat). reflexivity.
Defined.

Lemma default_methods_not_implemented_witness :
  @update_state demo 0%nat [VInt 1; VInt 0] ∅ one_metric_one_variable =
    (one_metric_one_variable, inl NotImplementedError) ∧
  @result demo 0%nat one_metric_one_variable =
    (one_metric_one_variable, inl NotImplementedError).
Proof.
  eapply (@default_methods_not_implemented demo one_metric_one_variable 0%nat "Metric");
    reflexivity.
Defined.

Lemma reset_state_zeroes_variables_witness :
  ∃ st', reset_state 0%nat family = (st', inr tt) ∧
    (∀ v, v ∈ [VRef 12%nat] ++ concat [[VRef 13%nat]] → reads_zero st' v = true) ∧
    variables 0%nat st' = (st', inr ([VRef 12%nat] ++ concat [[VRef 13%nat]])) ∧
    own_variables st' (VRef 0%nat) = Some [VRef 12%nat] ∧
    own_metrics st' (VRef 0%nat) = Some [VRef 4%nat] ∧
    children_variables st' [VRef 4%nat] = Some [[VRef 13%nat]] ∧
    same_but_variables family st' ∧
    (∀ l, VRef l ∉ [VRef 12%nat] ++ concat [[VRef 13%nat]] →
          heap st' !! l = heap family !! l).
Proof.
  apply (reset_state_zeroes_variables family 0%nat
           [VRef 12%nat] [VRef 4%nat] [[VRef 13%nat]]); try reflexivity.
  repeat constructor.
Defined.

(** C4, as stated, fails on [chain]: the variable at 12 belongs to a
    descendant of the metric at 0 and holds 1; [reset_state] of the metric
    at 0 ends normally and the variable still holds 1. *)
Lemma reset_state_misses_grandchild :
  ¬ (∀ st top child grand v st',
       VRef child ∈ default [] (own_metrics st (VRef top)) →
       VRef grand ∈ default [] (own_metrics st (VRef child)) →
       v ∈ default [] (own_variables st (VRef grand)) →
       reset_state top st = (st', inr tt) →
       reads_zero st' v = true).
Proof.
  intros H.
  assert (Hz : reads_zero chain (VRef 12%nat) = true).
  { apply (H chain 0%nat 4%nat 8%nat (VRef 12%nat) chain).
    - replace (own_metrics chain (VRef 0%nat)) with (Some [VRef 4%nat]) by reflexivity.
      apply list_elem_of_here.
    - replace (own_metrics chain (VRef 4%nat)) with (Some [VRef 8%nat]) by reflexivity.
      apply list_elem_of_here.
    - replace (own_variables chain (VRef 8%nat)) with (Some [VRef 12%nat]) by reflexivity.
      apply list_elem_of_here.
    - reflexivity. }
  discriminate Hz.
Qed.



Lemma default_methods_skip_construction_check_witness :
  @update_state demo 0%nat [VInt 1] ∅ skipped_init =
    (skipped_init, inl NotImplementedError) ∧
  @result demo 0%nat skipped_init = (skipped_init, inl NotImplementedError) ∧
  NotImplementedError ≠ forgot_super ∧
  @__call__ demo 0%nat [VInt 1] ∅ skipped_init = (skipped_init, inl forgot_super) ∧
  @add_variable demo 0%nat (VTuple []) (VStr "zeros") VNone (VStr "total")
    skipped_init = (skipped_init, inl forgot_super).
Proof.
  eapply (@default_methods_skip_construction_check demo skipped_init 0%nat "Metric" ∅);
    reflexivity.
Defined.

Lemma add_variable_frame_witness :
  VRef 4%nat = VRef (length (heap one_metric)) ∧
  heap one_metric !! length (heap one_metric) = None ∧
  (∃ X, heap one_metric_one_variable !! length (heap one_metric) = Some (OVariable X) ∧
        var_trainable X = false ∧
        var_shape X = VTuple [] ∧ var_dtype X = VNone ∧ var_name X = VStr "total") ∧
  heap one_metric_one_variable !! 0%nat = heap one_metric !! 0%nat ∧
  own_variables one_metric_one_variable (VRef 0%nat) = Some ([] ++ [VRef 4%nat]) ∧
  own_metrics one_metric_one_variable (VRef 0%nat) = Some [] ∧
  (∀ l o, heap one_metric !! l = Some o → l ≠ 2%nat → l ≠ 3%nat →
          heap one_metric_one_variable !! l = Some o) ∧
  length (heap one_metric_one_variable) = S (length (heap one_metric)) ∧
  name_uid one_metric_one_variable = name_uid one_metric.
Proof.
  eapply (@add_variable_frame demo one_metric 0%nat
            (mkView "Metric" _ 2%nat 1%nat 3%nat [] [] ∅ ∅)
            (VTuple []) (VStr "ones") VNone (VStr "total")).
  - unfold constructed. simpl. repeat split; try reflexivity. lia.
  - reflexivity.
Defined.



(** The scenario of a counter: a call with five values returns the
    variable [total], which then holds 5; [reset_state] brings it back to
    0. *)
Example counter_scenario :
  let batch := [VBool true; VBool true; VBool true; VBool true; VBool true] in
  let '(st1, r) := @__call__ demo 0%nat batch ∅ counter in
  let '(st2, _) := reset_state 0%nat st1 in
  read_variable counter (VRef 4%nat) = Some [0] ∧
  r = inr (VRef 4%nat) ∧
  read_variable st1 (VRef 4%nat) = Some [5] ∧
  read_variable st2 (VRef 4%nat) = Some [0].
Proof. vm_compute. done. Qed.

(** * Further properties of the class *)

(** ** Construction *)

Lemma objects_kept_same_but_variables st st' :
  objects_kept st st' → same_but_variables st st'.
Proof. intros H l o Hl _. by apply H. Qed.



Section Construct.
Context `{E : Collaborators}.

(** X1.  [Metric.__init__] on an instance that has no [_tracker] yet ends
    normally for every dtype and name.  Afterwards the construction check
    passes, the name is the argument when it is truthy and a name from
    [auto_name] otherwise, the dtype is the argument, both registries are
    empty and so is [variables], whatever the arguments were; every other
    object of the store is as before. *)
Theorem init_completes_construction st self c attrs d n :
  heap st !! self = Some (OMetric c attrs) →
  attrs !! "_tracker" = None →
  ∃ st' V,
    __init__ self d n st = (st', inr tt) ∧
    constructed st' self V ∧ registered_once st' V ∧
    _check_super_called self st' = (st', inr tt) ∧
    getattr (VRef self) "name" st' = (st', inr (init_name c st n)) ∧
    dtype self st' = (st', inr d) ∧
    own_variables st' (VRef self) = Some [] ∧
    own_metrics st' (VRef self) = Some [] ∧
    variables self st' = (st', inr []) ∧
    name_uid st' = init_uid st n ∧
    (∀ l o, heap st !! l = Some o → l ≠ self → heap st' !! l = Some o).
Proof.
  intros Hs Ht.
  destruct (state_after_init_constructed st self c attrs d (init_name c st n)
              (init_uid st n) Hs) as [HV HR].
  eexists _, _. split; [by apply init_spec_any_name|].
  split; [exact HV|]. split; [exact HR|].
  pose proof HV as (Hs' & _). simpl in Hs'.
  split; [by eapply check_super_called_ok, constructed_hasattr|].
  split; [eapply getattr_metric; [exact Hs'|]; unfold attrs_after_init;
          by simplify_map_eq|].
  split; [eapply getattr_metric; [exact Hs'|]; unfold attrs_after_init;
          by simplify_map_eq|].
  split; [apply (constructed_own_variables _ _ _ HV)|].
  split; [apply (constructed_own_metrics _ _ _ HV)|].
  split.
  { apply (variables_spec _ _ [] [] []); try done.
    - apply (constructed_own_variables _ _ _ HV).
    - apply (constructed_own_metrics _ _ _ HV). }
  split; [done|].
  intros l o Hl Hne. pose proof (lookup_lt_Some _ _ _ Hl).
  unfold state_after_init. simpl.
  rewrite lookup_app_l by (by rewrite length_insert).
  by rewrite list_lookup_insert_ne.
Qed.


(** X3.  The accessors make no construction check.  On an instance
    without the attributes construction sets, [dtype] raises
    AttributeError for [_dtype], [get_config] for [name], and [variables]
    and [reset_state] for [_variables]; none raises the RuntimeError of
    [_check_super_called] and none changes the state. *)
Theorem accessors_without_construction st self c attrs :
  heap st !! self = Some (OMetric c attrs) →
  attrs !! "name" = None →
  attrs !! "_dtype" = None →
  attrs !! "_variables" = None →
  dtype self st = (st, inl (AttributeError "_dtype")) ∧
  get_config self st = (st, inl (AttributeError "name")) ∧
  variables self st = (st, inl (AttributeError "_variables")) ∧
  reset_state self st = (st, inl (AttributeError "_variables")).
Proof.
  intros Hs Hn Hd Hv.
  assert (Hget : ∀ a, attrs !! a = None →
            getattr (VRef self) a st = (st, inl (AttributeError a))).
  { intros a Ha. unfold getattr, get_obj. by rewrite Hs, Ha. }
  split; [by apply Hget|].
  split; [unfold get_config; by rewrite (bind_raise _ _ _ _ _ (Hget _ Hn))|].
  assert (Hvars : variables self st = (st, inl (AttributeError "_variables"))).
  { unfold variables. by rewrite (bind_raise _ _ _ _ _ (Hget _ Hv)). }
  split; [done|].
  unfold reset_state. by rewrite (bind_raise _ _ _ _ _ Hvars).
Qed.

(** X4.  When [initializers.get] raises, [add_variable] raises the same
    exception on a constructed instance, and the RuntimeError of the
    construction check on one that is not; in both cases nothing was
    created or registered: the state is the one before the call. *)
Theorem add_variable_unknown_initializer st self shape initializer e d n :
  initializers_get initializer = inl e →
  add_variable self shape initializer d n st =
    (st, inl (if hasattr st self "_tracker" then e else forgot_super)).
Proof.
  intros Hi. unfold add_variable. destruct (hasattr st self "_tracker") eqn:Hh.
  - rewrite (bind_ok _ _ _ _ _ (check_super_called_ok _ _ Hh)).
    unfold bind, lift, raise. by rewrite Hi.
  - by rewrite (bind_raise _ _ _ _ _ (check_super_called_skipped _ _ Hh)).
Qed.

End Construct.

(** ** Creating variables *)

Lemma read_list_attr_unchanged st st' m name items :
  read_list_attr st m name = Some items →
  (∀ l c attrs, m = VRef l → heap st !! l = Some (OMetric c attrs) →
                heap st' !! l = Some (OMetric c attrs)) →
  (∀ l its, getattr m name st = (st, inr (VRef l)) →
            heap st !! l = Some (OList its) → heap st' !! l = Some (OList its)) →
  read_list_attr st' m name = Some items.
Proof.
  unfold read_list_attr, getattr, list_items, get_obj.
  destruct m as [| | | |l|]; try done.
  destruct (heap st !! l) as [[|c attrs| |]|] eqn:Hl; try done.
  intros H Hm Hlist. rewrite (Hm _ _ _ eq_refl Hl).
  destruct (attrs !! name) as [[| | | |l'|]|]; try done.
  destruct (heap st !! l') as [[| |its|]|] eqn:Hl'; try done.
  by rewrite (Hlist _ _ eq_refl Hl').
Qed.

Section Creating.
Context `{E : Collaborators}.

(** X5.  Two calls of [add_variable] on a constructed metric create two
    different variables and register them in the order of the calls,
    after the variables registered before; each holds what its own
    initializer gives for its shape and dtype. *)
Theorem add_variable_twice st self V s1 i1 init1 d1 n1 s2 i2 init2 d2 n2 :
  constructed st self V →
  initializers_get i1 = inr init1 →
  initializers_get i2 = inr init2 →
  ∃ st1 st2 x1 x2,
    add_variable self s1 i1 d1 n1 st = (st1, inr (VRef x1)) ∧
    add_variable self s2 i2 d2 n2 st1 = (st2, inr (VRef x2)) ∧
    x1 ≠ x2 ∧
    own_variables st2 (VRef self) = Some (mv_variables V ++ [VRef x1; VRef x2]) ∧
    own_metrics st2 (VRef self) = Some (mv_metrics V) ∧
    read_variable st2 (VRef x1) = Some (init1 s1 d1) ∧
    read_variable st2 (VRef x2) = Some (init2 s2 d2).
Proof.
  intros HV Hi1 Hi2.
  destruct (add_variable_spec _ _ _ s1 _ _ d1 n1 HV Hi1) as [Hrun1 HV1].
  destruct (add_variable_spec _ _ _ s2 _ _ d2 n2 HV1 Hi2) as [Hrun2 HV2].
  pose proof HV as (Hs & _ & _ & _ & Hlv & _ & Htr & _). bounds.
  set (k := length (heap st)) in *.
  match type of Hrun1 with _ = (?s, _) => set (st1 := s) in * end.
  assert (Hlen : length (heap st1) = S k).
  { unfold st1. simpl. rewrite !length_insert, length_app. simpl. lia. }
  rewrite Hlen in *.
  match type of Hrun2 with _ = (?s, _) => set (st2 := s) in * end.
  exists st1, st2, k, (S k).
  split; [done|]. split; [done|]. split; [lia|].
  split.
  { rewrite (constructed_own_variables _ _ _ HV2). simpl. by rewrite <-app_assoc. }
  split; [by rewrite (constructed_own_metrics _ _ _ HV2)|].
  simpl in HV2. fold k in HV2.
  split.
  - unfold read_variable, get_obj, st2, st1. simpl.
    rewrite !list_lookup_insert_ne by lia.
    rewrite lookup_app_l by (rewrite !length_insert, length_app; simpl; lia).
    rewrite !list_lookup_insert_ne by lia.
    by rewrite list_lookup_middle.
  - unfold read_variable, get_obj, st2. simpl.
    rewrite !list_lookup_insert_ne by lia.
    by rewrite list_lookup_middle.
Qed.

(** X6.  After [add_variable] on a constructed metric, [variables]
    returns the variables registered before, then the new one, then the
    children's variables: the new variable comes before every child's.
    The children are metrics that do not share the registry list of
    [self]. *)
Theorem add_variable_then_variables st self V cvs s i init d n :
  constructed st self V →
  initializers_get i = inr init →
  children_variables st (mv_metrics V) = Some cvs →
  Forall (fun m => getattr m "_variables" st ≠
                     (st, inr (VRef (mv_variables_at V)))) (mv_metrics V) →
  ∃ st' x,
    add_variable self s i d n st = (st', inr (VRef x)) ∧
    variables self st' = (st', inr ((mv_variables V ++ [VRef x]) ++ concat cvs)) ∧
    read_variable st' (VRef x) = Some (init s d).
Proof.
  intros HV Hi Hc Hshare.
  destruct (add_variable_spec _ _ _ s _ _ d n HV Hi) as [Hrun HV'].
  pose proof HV as (Hs & _ & _ & _ & Hlv & _ & Htr & _). bounds.
  match type of Hrun with _ = (?s, _) => set (st' := s) in * end.
  assert (Hother : ∀ l o, heap st !! l = Some o →
            l ≠ mv_variables_at V → l ≠ mv_tracker_at V → heap st' !! l = Some o).
  { intros l o Hl ? ?. unfold st'. in_heap. }
  exists st', (length (heap st)). split; [done|]. split.
  - apply (variables_spec _ _ _ (mv_metrics V)).
    + apply (constructed_own_variables _ _ _ HV').
    + apply (constructed_own_metrics _ _ _ HV').
    + unfold children_variables in *. apply mapM_Some. apply mapM_Some in Hc.
      clear -Hc Hshare Hother Hlv Htr.
      induction Hc as [|m vs ms cvs' Hm _ IH]; [constructor|].
      inversion Hshare as [|? ? Hm' Hrest]; subst.
      constructor; [|by apply IH].
      eapply read_list_attr_unchanged; [exact Hm| |].
      * intros l c attrs -> Hl. apply Hother; [done|distinct..].
      * intros l its Hg Hl. apply Hother; [done| |distinct].
        intros ->. by apply Hm'.
  - unfold read_variable, get_obj, st'. simpl.
    rewrite !list_lookup_insert_ne by lia. by rewrite list_lookup_middle.
Qed.

(** X7.  Instances share no registry: a metric constructed later gets
    lists of its own, so that a variable added to it is the only one its
    [variables] returns and leaves [variables] of an earlier metric as it
    was. *)
Theorem instances_share_no_registry st m1 V1 cvs c s i init d n :
  constructed st m1 V1 →
  children_variables st (mv_metrics V1) = Some cvs →
  cls_init (classes c) = None →
  initializers_get i = inr init →
  ∃ st1 st2 m2 x,
    construct c [] ∅ st = (st1, inr (VRef m2)) ∧
    add_variable m2 s i d n st1 = (st2, inr (VRef x)) ∧
    m2 ≠ m1 ∧
    variables m2 st2 = (st2, inr [VRef x]) ∧
    variables m1 st = (st, inr (mv_variables V1 ++ concat cvs)) ∧
    variables m1 st2 = (st2, inr (mv_variables V1 ++ concat cvs)).
Proof.
  intros HV1 Hc Hcls Hi.
  destruct (construct_default st c Hcls) as (Hrun1 & HV2 & _ & _).
  destruct (add_variable_spec _ _ _ s _ _ d n HV2 Hi) as [Hrun2 HV2'].
  pose proof HV1 as (Hs & _). bounds.
  match type of Hrun1 with _ = (?s, _) => set (st1 := s) in * end.
  match type of Hrun2 with _ = (?s, _) => set (st2 := s) in * end.
  assert (Hlen1 : length (heap st1) = (length (heap st) + 4)%nat).
  { unfold st1, state_after_init. simpl.
    rewrite length_app, length_insert, length_app. simpl. lia. }
  assert (Hkept : objects_kept st st2).
  { intros l o Hl. pose proof (lookup_lt_Some _ _ _ Hl).
    unfold st2, st1, state_after_init. simpl. rewrite !length_app. simpl.
    rewrite !list_lookup_insert_ne by lia.
    rewrite !lookup_app_l
      by (rewrite ?length_app, ?length_insert, ?length_app; simpl; lia).
    rewrite list_lookup_insert_ne by lia.
    by apply lookup_app_l_Some. }
  apply objects_kept_same_but_variables in Hkept.
  exists st1, st2, (length (heap st)), (length (heap st1)).
  split; [done|]. split; [done|]. split; [lia|].
  split; [|split].
  - apply (variables_spec _ _ [VRef (length (heap st1))] [] []); try done.
    + apply (constructed_own_variables _ _ _ HV2').
    + apply (constructed_own_metrics _ _ _ HV2').
  - apply (variables_spec _ _ _ (mv_metrics V1)); try done.
    + by apply constructed_own_variables.
    + by apply constructed_own_metrics.
  - apply (variables_spec _ _ _ (mv_metrics V1)).
    + apply (read_list_attr_frame st); [done|]. by apply constructed_own_variables.
    + apply (read_list_attr_frame st); [done|]. by apply constructed_own_metrics.
    + by apply (children_variables_frame st).
Qed.

End Creating.

(** ** Resetting, again *)

Lemma state_eta st : mkState (heap st) (name_uid st) = st.
Proof. by destruct st. Qed.

(** The loop of [reset_state] over variables that hold zero already
    leaves the state as it is. *)
Lemma for_each_assign_zero_fixed ls : ∀ st,
  (∀ l, l ∈ ls → ∃ V, heap st !! l = Some (OVariable (zero_variable V))) →
  for_each assign_zero (VRef <$> ls) st = (st, inr tt).
Proof.
  induction ls as [|l0 ls IH]; intros st Hz; [done|].
  destruct (Hz l0) as [V0 Hl0]; [apply list_elem_of_here|].
  simpl. erewrite bind_ok; [|by apply assign_zero_variable].
  rewrite zero_variable_idemp, list_insert_id by done. rewrite state_eta.
  apply IH. intros l Hl. apply Hz. by apply list_elem_of_further.
Qed.

(** [reset_state] on a metric whose registries hold variables, at the
    locations [ls]. *)
Lemma reset_state_run st self own metrics cvs :
  own_variables st (VRef self) = Some own →
  own_metrics st (VRef self) = Some metrics →
  children_variables st metrics = Some cvs →
  Forall (fun v => is_variable st v = true) (own ++ concat cvs) →
  ∃ ls st', own ++ concat cvs = VRef <$> ls ∧
    reset_state self st = (st', inr tt) ∧
    name_uid st' = name_uid st ∧
    (∀ l, l ∈ ls → ∃ V, heap st !! l = Some (OVariable V) ∧
                        heap st' !! l = Some (OVariable (zero_variable V))) ∧
    (∀ l, l ∉ ls → heap st' !! l = heap st !! l) ∧
    same_but_variables st st'.
Proof.
  intros Ho Hm Hc Hv.
  destruct (all_variables_refs _ _ Hv) as (ls & Hls & Hvl).
  destruct (for_each_assign_zero ls st Hvl) as (st' & Hrun & Huid & Hin & Hout).
  exists ls, st'. split; [done|]. split.
  { unfold reset_state. rewrite (bind_ok _ _ _ _ _ (variables_spec _ _ _ _ _ Ho Hm Hc)).
    by rewrite Hls. }
  split; [done|]. split; [done|]. split; [done|].
  intros l o Hl Ho'. destruct (decide (l ∈ ls)) as [Hi|Hi].
  - destruct (Hin l Hi) as (V & HV & _). rewrite Hl in HV.
    injection HV as ->. by destruct (Ho' V).
  - by rewrite (Hout l Hi).
Qed.

(** X8.  [reset_state] is idempotent: run on the state a first
    [reset_state] left, it ends normally and changes nothing. *)
Theorem reset_state_idempotent st self own metrics cvs :
  own_variables st (VRef self) = Some own →
  own_metrics st (VRef self) = Some metrics →
  children_variables st metrics = Some cvs →
  Forall (fun v => is_variable st v = true) (own ++ concat cvs) →
  ∃ st', reset_state self st = (st', inr tt) ∧
         reset_state self st' = (st', inr tt).
Proof.
  intros Ho Hm Hc Hv.
  destruct (reset_state_run _ _ _ _ _ Ho Hm Hc Hv)
    as (ls & st' & Hls & Hrun & _ & Hin & _ & Hf).
  exists st'. split; [done|].
  unfold reset_state. erewrite bind_ok.
  2:{ apply (variables_spec _ _ own metrics cvs).
      - by apply (read_list_attr_frame st).
      - by apply (read_list_attr_frame st).
      - by apply (children_variables_frame st). }
  rewrite Hls. apply for_each_assign_zero_fixed.
  intros l Hl. destruct (Hin l Hl) as (V & _ & HV). eauto.
Qed.

(** X9.  [reset_state] touches nothing but the entries of the variables
    [variables] returns: a variable outside that list (of another metric,
    or of a grandchild) holds what it held, every variable keeps its
    shape, dtype, name, trainable flag and number of entries, and the
    naming counter is as before. *)
Theorem reset_state_frame st self own metrics cvs :
  own_variables st (VRef self) = Some own →
  own_metrics st (VRef self) = Some metrics →
  children_variables st metrics = Some cvs →
  Forall (fun v => is_variable st v = true) (own ++ concat cvs) →
  ∃ st', reset_state self st = (st', inr tt) ∧
    (∀ l, VRef l ∉ own ++ concat cvs → heap st' !! l = heap st !! l) ∧
    (∀ l V, heap st !! l = Some (OVariable V) →
       ∃ V', heap st' !! l = Some (OVariable V') ∧
             var_shape V' = var_shape V ∧ var_dtype V' = var_dtype V ∧
             var_name V' = var_name V ∧ var_trainable V' = var_trainable V ∧
             length (var_value V') = length (var_value V)) ∧
    name_uid st' = name_uid st.
Proof.
  intros Ho Hm Hc Hv.
  destruct (reset_state_run _ _ _ _ _ Ho Hm Hc Hv)
    as (ls & st' & Hls & Hrun & Huid & Hin & Hout & _).
  exists st'. split; [done|]. split; [|split; [|done]].
  - intros l Hl. apply Hout. intros Hi. apply Hl. rewrite Hls.
    by apply list_elem_of_fmap_2.
  - intros l V Hl. destruct (decide (l ∈ ls)) as [Hi|Hi].
    + destruct (Hin l Hi) as (V0 & HV0 & HV'). rewrite Hl in HV0.
      injection HV0 as <-. exists (zero_variable V). split; [done|].
      unfold zero_variable. simpl. by rewrite length_map.
    + exists V. by rewrite (Hout l Hi).
Qed.

Lemma extend_with_children_state metrics : ∀ acc st st' r,
  extend_with_children acc metrics st = (st', r) → st' = st.
Proof.
  induction metrics as [|m metrics IH]; intros acc st st' r H.
  - by inversion H.
  - simpl in H. unfold bind in H.
    destruct (getattr m "_variables" st) as [s1 [e|mv]] eqn:Hg;
      apply getattr_state in Hg as ->; [by inversion H|].
    destruct (list_items mv st) as [s2 [e|items]] eqn:Hl;
      apply list_items_state in Hl as ->; [by inversion H|].
    by eapply IH.
Qed.

(** [variables] only reads: whatever it returns or raises, the state is
    the one it was called in. *)
Lemma variables_state self st st' r :
  variables self st = (st', r) → st' = st.
Proof.
  unfold variables, bind. intros H.
  destruct (getattr (VRef self) "_variables" st) as [s1 [e|own]] eqn:Hg1;
    apply getattr_state in Hg1 as ->; [by inversion H|].
  destruct (list_items own st) as [s2 [e|vs]] eqn:Hl1;
    apply list_items_state in Hl1 as ->; [by inversion H|].
  destruct (getattr (VRef self) "_metrics" st) as [s3 [e|ms]] eqn:Hg2;
    apply getattr_state in Hg2 as ->; [by inversion H|].
  destruct (list_items ms st) as [s4 [e|metrics]] eqn:Hl2;
    apply list_items_state in Hl2 as ->; [by inversion H|].
  by eapply extend_with_children_state.
Qed.

Lemma assign_zero_frame v st st' r :
  assign_zero v st = (st', r) → same_but_variables st st'.
Proof.
  unfold assign_zero, get_obj, set_obj. intros H l o Hl Ho.
  destruct v as [| | | |l0|]; try (by inversion H; subst).
  destruct (heap st !! l0) as [[V0| | |]|] eqn:Hl0; try (by inversion H; subst).
  inversion H; subst. simpl.
  destruct (decide (l = l0)) as [->|Hne].
  - rewrite Hl in Hl0. injection Hl0 as ->. by destruct (Ho V0).
  - by rewrite list_lookup_insert_ne.
Qed.

Lemma for_each_assign_zero_frame vs : ∀ st st' r,
  for_each assign_zero vs st = (st', r) → same_but_variables st st'.
Proof.
  induction vs as [|v vs IH]; intros st st' r H.
  - inversion H; subst. by intros l o Hl _.
  - simpl in H. unfold bind in H.
    destruct (assign_zero v st) as [st1 [e|[]]] eqn:Ha;
      pose proof (assign_zero_frame _ _ _ _ Ha) as H1.
    + by inversion H; subst.
    + pose proof (IH _ _ _ H) as H2. intros l o Hl Ho. apply H2; [|done].
      by apply H1.
Qed.

(** [reset_state] changes nothing but variables, also when it raises on
    the way. *)
Lemma reset_state_same_but_variables self st st' r :
  reset_state self st = (st', r) → same_but_variables st st'.
Proof.
  unfold reset_state, bind. intros H.
  destruct (variables self st) as [s1 [e|vs]] eqn:Hv;
    apply variables_state in Hv as ->.
  - inversion H; subst. by intros l o Hl _.
  - by eapply for_each_assign_zero_frame.
Qed.

Lemma get_config_same st st' self :
  heap st' !! self = heap st !! self →
  snd (get_config self st') = snd (get_config self st).
Proof.
  intros H. unfold get_config, dtype, bind, getattr, get_obj. rewrite H.
  destruct (heap st !! self) as [[|c attrs| |]|] eqn:Hs; try done.
  destruct (attrs !! "name"); [|done].
  rewrite H, Hs. by destruct (attrs !! "_dtype").
Qed.

Section Composition.
Context `{E : Collaborators}.

(** X10.  On a constructed metric, [__call__] ends in NotImplementedError
    in two ways.  When the class does not override [update_state], nothing
    has happened: the state is the one before the call.  When it overrides
    [update_state] and not [result], the update has already been made:
    the state is the one [update_state] left. *)
Theorem call_not_implemented st self c attrs args kwargs :
  heap st !! self = Some (OMetric c attrs) →
  is_Some (attrs !! "_tracker") →
  (cls_update_state (classes c) = None →
     __call__ self args kwargs st = (st, inl NotImplementedError)) ∧
  (∀ f st1 attrs1,
     cls_update_state (classes c) = Some f →
     cls_result (classes c) = None →
     f self args kwargs st = (st1, inr tt) →
     heap st1 !! self = Some (OMetric c attrs1) →
     __call__ self args kwargs st = (st1, inl NotImplementedError)).
Proof.
  intros Hs [t Ht].
  assert (Hh : hasattr st self "_tracker" = true) by by eapply hasattr_metric.
  split.
  - intros Hu. unfold __call__.
    rewrite (bind_ok _ _ _ _ _ (check_super_called_ok _ _ Hh)).
    unfold update_state, bind. by rewrite (class_name_metric _ _ _ _ Hs), Hu.
  - intros f st1 attrs1 Hu Hr Hf Hs1. unfold __call__.
    rewrite (bind_ok _ _ _ _ _ (check_super_called_ok _ _ Hh)).
    erewrite bind_ok.
    2:{ unfold update_state, bind. rewrite (class_name_metric _ _ _ _ Hs), Hu.
        exact Hf. }
    unfold result, bind. by rewrite (class_name_metric _ _ _ _ Hs1), Hr.
Qed.

(** X11.  The config does not depend on the variables: [get_config]
    returns the same after [add_variable] as before it, and the same after
    [reset_state], however that ended. *)
Theorem get_config_ignores_variables st self V :
  constructed st self V →
  (∀ s i d n st' r,
     add_variable self s i d n st = (st', inr r) →
     snd (get_config self st') = snd (get_config self st)) ∧
  (∀ st' r,
     reset_state self st = (st', r) →
     snd (get_config self st') = snd (get_config self st)).
Proof.
  intros HV. pose proof HV as (Hs & _ & _ & _ & Hlv & _ & Htr & _). split.
  - intros s i d n st' r Hrun.
    destruct (add_variable_succeeds _ _ _ _ _ _ _ _ (constructed_hasattr _ _ _ HV) Hrun)
      as [init Hi].
    destruct (add_variable_spec _ _ _ s _ _ d n HV Hi) as [Hrun' _].
    rewrite Hrun in Hrun'. injection Hrun' as -> _.
    apply get_config_same. in_heap.
  - intros st' r Hrun. apply get_config_same.
    apply reset_state_same_but_variables in Hrun.
    rewrite Hs. by apply Hrun.
Qed.

End Composition.

(** ** The name, the config and the children *)

(** [self.a = v] on a constructed metric for a value that holds no
    reference: the tracker registers nothing, the attribute is stored. *)
Lemma setattr_plain_value st self V a v :
  constructed st self V →
  plain_value v = true →
  read_only_property a = false →
  __setattr__ self a v st =
    (mkState (<[self := OMetric (mv_class V) (<[a := v]> (mv_attrs V))]> (heap st))
       (name_uid st), inr tt).
Proof.
  intros HV Hv Hp. pose proof HV as (Hs & _ & _ & Ht & _ & _ & Htr & _).
  unfold __setattr__. rewrite (constructed_hasattr _ _ _ HV).
  step by (eapply getattr_metric).
  erewrite bind_ok.
  2:{ unfold track, get_obj. rewrite Htr. by destruct v. }
  by apply object_setattr_metric.
Qed.

(** X12.  [get_config] reads the attribute [name] as it is now: after
    [self.name = v] on a constructed metric, for a string, a number,
    a boolean or [None], the config has [v] as name and the dtype it had;
    the registries are not affected by the assignment. *)
Theorem name_assignment_reaches_config st self V v d :
  constructed st self V →
  mv_attrs V !! "_dtype" = Some d →
  plain_value v = true →
  ∃ st',
    __setattr__ self "name" v st = (st', inr tt) ∧
    get_config self st' = (st', inr (<["dtype" := d]> (<["name" := v]> ∅))) ∧
    own_variables st' (VRef self) = Some (mv_variables V) ∧
    own_metrics st' (VRef self) = Some (mv_metrics V).
Proof.
  intros HV Hd Hv.
  pose proof (constructed_set_attr _ _ _ "name" v HV eq_refl) as HV'.
  eexists. split; [by apply setattr_plain_value|].
  pose proof HV' as (Hs' & _). simpl in Hs'.
  split.
  - unfold get_config, dtype.
    step by (eapply getattr_metric; [exact Hs'|by simplify_map_eq]).
    step by (eapply getattr_metric; [exact Hs'|by simplify_map_eq]).
    done.
  - split.
    + apply (constructed_own_variables _ _ _ HV').
    + apply (constructed_own_metrics _ _ _ HV').
Qed.

Lemma extend_with_children_app st ms1 : ∀ (acc : list value) rest cvs,
  children_variables st ms1 = Some cvs →
  extend_with_children acc (ms1 ++ rest) st =
  extend_with_children (acc ++ concat cvs) rest st.
Proof.
  unfold children_variables.
  induction ms1 as [|m ms1 IH]; intros acc rest cvs H.
  - simpl in H. injection H as <-. simpl. by rewrite app_nil_r.
  - apply mapM_Some in H. inversion H as [|? vs ? cvs' Hm Hrest]; subst.
    apply read_list_attr_Some in Hm as (lst & Hg & Hl).
    simpl. unfold bind at 1. rewrite Hg. unfold bind at 1. rewrite Hl.
    rewrite (IH (acc ++ vs) rest cvs') by by apply mapM_Some.
    by rewrite <-app_assoc.
Qed.

(** X13.  One child without a readable [_variables] (a metric whose
    construction was skipped, say) makes [variables] of the parent raise
    the child's AttributeError, and [reset_state] of the parent raise it
    too before any variable is reset, the parent's own included: the
    state is the one before the call. *)
Theorem unreadable_child_blocks_parent st self own before child after cvs e :
  own_variables st (VRef self) = Some own →
  own_metrics st (VRef self) = Some (before ++ child :: after) →
  children_variables st before = Some cvs →
  getattr child "_variables" st = (st, inl e) →
  variables self st = (st, inl e) ∧
  reset_state self st = (st, inl e).
Proof.
  intros Ho Hm Hc Hg.
  assert (Hvars : variables self st = (st, inl e)).
  { apply read_list_attr_Some in Ho as (lo & Hgo & Hlo).
    apply read_list_attr_Some in Hm as (lm & Hgm & Hlm).
    unfold variables.
    rewrite (bind_ok _ _ _ _ _ Hgo), (bind_ok _ _ _ _ _ Hlo).
    rewrite (bind_ok _ _ _ _ _ Hgm), (bind_ok _ _ _ _ _ Hlm).
    rewrite (extend_with_children_app _ _ _ _ _ Hc). simpl.
    by rewrite (bind_raise _ _ _ _ _ Hg). }
  split; [done|]. unfold reset_state. by rewrite (bind_raise _ _ _ _ _ Hvars).
Qed.

Section Config.
Context `{E : Collaborators}.

(** X14.  [from_config] passes the config as keyword arguments to the
    class, so a config with any key other than "name" and "dtype" is
    refused with a TypeError by a class that inherits [Metric.__init__];
    the objects that were there are not changed. *)
Theorem from_config_rejects_other_keys st c (config : gmap string value) k v :
  cls_init (classes c) = None →
  config !! k = Some v →
  k ≠ "name" → k ≠ "dtype" →
  ∃ st', from_config c config st = (st', inl bind_error) ∧ objects_kept st st'.
Proof.
  intros Hc Hk Hn Hd.
  assert (Hb : bind_params [("dtype", Some VNone); ("name", Some VNone)] [] config =
               inl bind_error).
  { unfold bind_params.
    destruct (forallb _ _) eqn:Hall; [|done].
    rewrite forallb_forall in Hall.
    assert (Hin : In k (map_to_list config).*1).
    { apply list_elem_of_In, list_elem_of_fmap. exists (k, v).
      split; [done|]. by apply elem_of_map_to_list. }
    apply Hall, bool_decide_eq_true in Hin. simpl in Hin.
    apply elem_of_cons in Hin as [->|Hin]; [done|].
    apply elem_of_cons in Hin as [->|Hin]; [done|].
    by apply elem_of_nil in Hin. }
  exists (mkState (heap st ++ [OMetric c ∅]) (name_uid st)). split.
  - unfold from_config, construct. step by (unfold alloc). rewrite Hc.
    apply bind_raise. unfold call___init__. apply bind_raise.
    by rewrite Hb.
  - intros l o Hl. simpl. by apply lookup_app_l_Some.
Qed.

(** X15.  A falsy name does not survive the round trip: [from_config] on
    a config whose name is falsy ([None], the empty string, 0) gives the
    new instance a name from [auto_name], which uses up one number of the
    naming utility; the dtype is the config's. *)
Theorem from_config_falsy_name st c n d :
  cls_init (classes c) = None →
  truthy st n = false →
  ∃ st' new,
    from_config c (<["dtype" := d]> (<["name" := n]> ∅)) st = (st', inr (VRef new)) ∧
    getattr (VRef new) "name" st' =
      (st', inr (VStr (auto_name_format c (name_uid st)))) ∧
    dtype new st' = (st', inr d) ∧
    name_uid st' = S (name_uid st) ∧
    objects_kept st st'.
Proof.
  intros Hc Ht.
  set (k := length (heap st)).
  set (st0 := mkState (heap st ++ [OMetric c ∅]) (name_uid st)).
  assert (Hs0 : heap st0 !! k = Some (OMetric c ∅)).
  { unfold st0, k. simpl. by rewrite list_lookup_middle. }
  assert (Ht0 : truthy st0 n = false).
  { unfold st0. by rewrite truthy_alloc_metric. }
  pose proof (init_spec_any_name st0 k c ∅ d n Hs0 eq_refl) as Hinit.
  unfold init_name, init_uid in Hinit. rewrite Ht0 in Hinit.
  destruct (state_after_init_constructed st0 k c ∅ d
              (VStr (auto_name_format c (name_uid st0))) (S (name_uid st0)) Hs0)
    as [HV' _].
  match type of Hinit with _ = (?s, _) => set (st' := s) in * end.
  pose proof HV' as (Hs' & _). simpl in Hs'.
  exists st', k. split; [|split; [|split; [|split]]].
  - unfold from_config, construct. step by (unfold alloc). rewrite Hc.
    fold k. fold st0.
    assert (Hcall : call___init__ k [] (<["dtype" := d]> (<["name" := n]> ∅)) st0 =
                    (st', inr tt)).
    { unfold call___init__. erewrite bind_ok; [|reflexivity]. exact Hinit. }
    step by (exact Hcall). done.
  - eapply getattr_metric; [exact Hs'|]. unfold attrs_after_init. by simplify_map_eq.
  - eapply getattr_metric; [exact Hs'|]. unfold attrs_after_init. by simplify_map_eq.
  - done.
  - intros l o Hl. pose proof (lookup_lt_Some _ _ _ Hl).
    unfold st', state_after_init, st0. simpl.
    rewrite lookup_app_l by (rewrite length_insert, length_app; simpl; lia).
    rewrite list_lookup_insert_ne by (unfold k; lia).
    by apply lookup_app_l_Some.
Qed.

(** X16.  [add_weight] needs an initializer as [add_variable] does: with
    at most one positional argument and no keyword "initializer" the call
    raises a TypeError, before the construction check and before anything
    is created, on every instance. *)
Theorem add_weight_requires_initializer st self args (kwargs : gmap string value) :
  (length args ≤ 1)%nat →
  kwargs !! "initializer" = None →
  add_weight self args kwargs st = (st, inl bind_error).
Proof.
  intros Hlen Hi. unfold add_weight, call_add_variable.
  apply bind_raise. unfold bind_params.
  destruct (forallb _ _); [|done].
  destruct args as [|a [|a' args]]; [| |simpl in Hlen; lia]; simpl; rewrite Hi.
  - by destruct (kwargs !! "shape").
  - by destruct (kwargs !! "shape").
Qed.

End Config.

(** ** Assigning to a property *)

Lemma object_setattr_property st l c attrs name v :
  heap st !! l = Some (OMetric c attrs) →
  read_only_property name = true →
  object_setattr l name v st = (st, inl (AttributeError name)).
Proof. intros Hl Hp. unfold object_setattr, get_obj. by rewrite Hl, Hp. Qed.

(** X17.  [dtype] and [variables] cannot be assigned: on a constructed
    metric the assignment raises AttributeError and the instance keeps
    its attributes.  The tracker has run by then, so a variable that was
    assigned is in the own variables all the same (appended if it was not
    registered yet); a value without references leaves the state as it
    was. *)
Theorem property_assignment_is_refused st self V a :
  constructed st self V →
  read_only_property a = true →
  (∀ v, plain_value v = true →
     __setattr__ self a v st = (st, inl (AttributeError a))) ∧
  (∀ x, is_variable st (VRef x) = true →
     ∃ st', __setattr__ self a (VRef x) st = (st', inl (AttributeError a)) ∧
       heap st' !! self = heap st !! self ∧
       own_variables st' (VRef self) =
         Some (if decide (x ∈ mv_ids_variables V) then mv_variables V
               else mv_variables V ++ [VRef x])).
Proof.
  intros HV Hp. pose proof HV as (Hs & _ & _ & Ht & Hlv & _ & Htr & _).
  split.
  - intros v Hv. unfold __setattr__. rewrite (constructed_hasattr _ _ _ HV).
    step by (eapply getattr_metric).
    erewrite bind_ok.
    2:{ unfold track, get_obj. rewrite Htr. by destruct v. }
    by eapply object_setattr_property.
  - intros x Hx. unfold is_variable, get_obj in Hx.
    destruct (heap st !! x) as [[X| | |]|] eqn:HX; try done.
    destruct (decide (x ∈ mv_ids_variables V)) as [Hold|Hnew].
    + exists st. split; [|split; [done|by apply constructed_own_variables]].
      unfold __setattr__. rewrite (constructed_hasattr _ _ _ HV).
      step by (eapply getattr_metric).
      erewrite bind_ok.
      2:{ unfold track, get_obj. rewrite Htr. simpl.
          by erewrite bind_ok by by eapply track_ref_known_variable. }
      by eapply object_setattr_property.
    + destruct (track_ref_new_variable _ _ _ _ _ HV HX Hnew) as [Htrack HV1].
      pose proof HV1 as (Hs1 & _). simpl in Hs1.
      eexists. split; [|split; [|apply (constructed_own_variables _ _ _ HV1)]].
      * unfold __setattr__. rewrite (constructed_hasattr _ _ _ HV).
        step by (eapply getattr_metric).
        erewrite bind_ok.
        2:{ unfold track, get_obj. rewrite Htr. simpl.
            by erewrite bind_ok by exact Htrack. }
        by eapply object_setattr_property.
      * by rewrite Hs.
Qed.

(** * The further properties on the concrete program *)

Lemma init_completes_construction_witness :
  ∃ st',
    @__init__ demo 0%nat (VStr "float32") VNone skipped_init = (st', inr tt) ∧
    _check_super_called 0%nat st' = (st', inr tt) ∧
    getattr (VRef 0%nat) "name" st' = (st', inr (VStr "Metric_")) ∧
    dtype 0%nat st' = (st', inr (VStr "float32")) ∧
    variables 0%nat st' = (st', inr []) ∧
    name_uid st' = 1%nat.
Proof.
  destruct (@init_completes_construction demo skipped_init 0%nat "Metric" ∅
              (VStr "float32") VNone eq_refl eq_refl)
    as (st' & V & H1 & _ & _ & H2 & H3 & H4 & _ & _ & H5 & H6 & _).
  exists st'. repeat split; assumption.
Defined.


Lemma accessors_without_construction_witness :
  dtype 0%nat skipped_init = (skipped_init, inl (AttributeError "_dtype")) ∧
  get_config 0%nat skipped_init = (skipped_init, inl (AttributeError "name")) ∧
  variables 0%nat skipped_init = (skipped_init, inl (AttributeError "_variables")) ∧
  reset_state 0%nat skipped_init = (skipped_init, inl (AttributeError "_variables")).
Proof.
  apply (accessors_without_construction skipped_init 0%nat "Metric" ∅); reflexivity.
Defined.

Lemma add_variable_unknown_initializer_witness :
  @add_variable demo 0%nat (VTuple []) (VStr "bogus") VNone (VStr "total") one_metric =
    (one_metric, inl (ValueError "Could not interpret initializer identifier")) ∧
  @add_variable demo 0%nat (VTuple []) (VStr "bogus") VNone (VStr "total") skipped_init =
    (skipped_init, inl forgot_super).
Proof.
  split.
  - apply (@add_variable_unknown_initializer demo one_metric 0%nat (VTuple [])
             (VStr "bogus")). reflexivity.
  - apply (@add_variable_unknown_initializer demo skipped_init 0%nat (VTuple [])
             (VStr "bogus") (ValueError "Could not interpret initializer identifier")).
    reflexivity.
Defined.

Lemma add_variable_twice_witness :
  ∃ st1 st2 x1 x2,
    @add_variable demo 0%nat (VTuple []) (VStr "zeros") VNone (VStr "a") one_metric =
      (st1, inr (VRef x1)) ∧
    @add_variable demo 0%nat (VTuple []) (VStr "ones") VNone (VStr "b") st1 =
      (st2, inr (VRef x2)) ∧
    x1 ≠ x2 ∧
    own_variables st2 (VRef 0%nat) = Some ([] ++ [VRef x1; VRef x2]) ∧
    own_metrics st2 (VRef 0%nat) = Some [] ∧
    read_variable st2 (VRef x1) = Some [0] ∧
    read_variable st2 (VRef x2) = Some [1].
Proof.
  eapply (@add_variable_twice demo one_metric 0%nat
            (mkView "Metric" _ 2%nat 1%nat 3%nat [] [] ∅ ∅)
            (VTuple []) (VStr "zeros") (fun _ _ => [0]) VNone (VStr "a")
            (VTuple []) (VStr "ones") (fun _ _ => [1]) VNone (VStr "b")).
  - unfold constructed. simpl. repeat split; try reflexivity. lia.
  - reflexivity.
  - reflexivity.
Defined.

Lemma add_variable_then_variables_witness :
  ∃ st' x,
    @add_variable demo 0%nat (VTuple []) (VStr "zeros") VNone (VStr "c") parent_child =
      (st', inr (VRef x)) ∧
    variables 0%nat st' =
      (st', inr (([VRef 8%nat] ++ [VRef x]) ++ concat [[VRef 9%nat]])) ∧
    read_variable st' (VRef x) = Some [0].
Proof.
  eapply (@add_variable_then_variables demo parent_child 0%nat
            (mkView "Metric" _ 2%nat 1%nat 3%nat [VRef 8%nat] [VRef 4%nat]
               {[8%nat]} {[4%nat]})
            [[VRef 9%nat]] (VTuple []) (VStr "zeros") (fun _ _ => [0])).
  - unfold constructed. simpl. repeat split; try reflexivity. lia.
  - reflexivity.
  - reflexivity.
  - simpl. constructor; [|constructor]. intros H. discriminate H.
Defined.

Lemma instances_share_no_registry_witness :
  ∃ st1 st2 m2 x,
    @construct demo "Metric" [] ∅ one_metric_one_variable = (st1, inr (VRef m2)) ∧
    @add_variable demo m2 (VTuple []) (VStr "zeros") VNone (VStr "n") st1 =
      (st2, inr (VRef x)) ∧
    m2 ≠ 0%nat ∧
    variables m2 st2 = (st2, inr [VRef x]) ∧
    variables 0%nat one_metric_one_variable =
      (one_metric_one_variable, inr ([VRef 4%nat] ++ concat [])) ∧
    variables 0%nat st2 = (st2, inr ([VRef 4%nat] ++ concat [])).
Proof.
  eapply (@instances_share_no_registry demo one_metric_one_variable 0%nat
            (mkView "Metric" _ 2%nat 1%nat 3%nat [VRef 4%nat] [] {[4%nat]} ∅)
            [] "Metric" (VTuple []) (VStr "zeros") (fun _ _ => [0])).
  - unfold constructed. simpl. repeat split; try reflexivity. lia.
  - reflexivity.
  - reflexivity.
  - reflexivity.
Defined.

Lemma reset_state_idempotent_witness :
  ∃ st', reset_state 0%nat parent_child = (st', inr tt) ∧
         reset_state 0%nat st' = (st', inr tt).
Proof.
  apply (reset_state_idempotent parent_child 0%nat
           [VRef 8%nat] [VRef 4%nat] [[VRef 9%nat]]); try reflexivity.
  repeat constructor.
Defined.

Lemma reset_state_frame_witness :
  ∃ st', reset_state 0%nat chain = (st', inr tt) ∧
         heap st' !! 12%nat = heap chain !! 12%nat ∧
         read_variable chain (VRef 12%nat) = Some [1].
Proof.
  destruct (reset_state_frame chain 0%nat [] [VRef 4%nat] [[]])
    as (st' & Hrun & Hout & _); try reflexivity.
  { constructor. }
  exists st'. split; [exact Hrun|]. split; [|reflexivity].
  apply Hout. simpl. apply not_elem_of_nil.
Defined.

Lemma call_not_implemented_witness :
  @__call__ demo_more 0%nat [VInt 1; VInt 1] ∅ only_update =
    (fst (counter_update_state 0%nat [VInt 1; VInt 1] ∅ only_update),
     inl NotImplementedError) ∧
  read_variable only_update (VRef 4%nat) = Some [0] ∧
  read_variable (fst (counter_update_state 0%nat [VInt 1; VInt 1] ∅ only_update))
    (VRef 4%nat) = Some [2].
Proof.
  split; [|split; reflexivity].
  eapply (@call_not_implemented demo_more only_update 0%nat "OnlyUpdate");
    [reflexivity|eexists; reflexivity|reflexivity..].
Defined.

Lemma get_config_ignores_variables_witness :
  snd (get_config 0%nat one_metric_one_variable) = snd (get_config 0%nat one_metric).
Proof.
  assert (HV : constructed one_metric 0%nat
                 (mkView "Metric" (attrs_after_init ∅ VNone (VStr "Metric_") 1)
                    2%nat 1%nat 3%nat [] [] ∅ ∅)).
  { unfold constructed. simpl. repeat split; try reflexivity. lia. }
  destruct (@get_config_ignores_variables demo one_metric 0%nat _ HV) as [H _].
  exact (H (VTuple []) (VStr "ones") VNone (VStr "total")
           one_metric_one_variable (VRef 4%nat) eq_refl).
Defined.

Lemma name_assignment_reaches_config_witness :
  ∃ st',
    __setattr__ 0%nat "name" (VStr "accuracy") one_metric_one_variable = (st', inr tt) ∧
    get_config 0%nat st' =
      (st', inr (<["dtype" := VNone]> (<["name" := VStr "accuracy"]> ∅))) ∧
    own_variables st' (VRef 0%nat) = Some [VRef 4%nat] ∧
    own_metrics st' (VRef 0%nat) = Some [].
Proof.
  eapply (name_assignment_reaches_config one_metric_one_variable 0%nat
            (mkView "Metric" _ 2%nat 1%nat 3%nat [VRef 4%nat] [] {[4%nat]} ∅)).
  - unfold constructed. simpl. repeat split; try reflexivity. lia.
  - reflexivity.
  - reflexivity.
Defined.

Lemma unreadable_child_blocks_parent_witness :
  variables 0%nat forgetful_child =
    (forgetful_child, inl (AttributeError "_variables")) ∧
  reset_state 0%nat forgetful_child =
    (forgetful_child, inl (AttributeError "_variables")).
Proof.
  apply (unreadable_child_blocks_parent forgetful_child 0%nat
           [] [] (VRef 4%nat) [] []); reflexivity.
Defined.

Lemma from_config_rejects_other_keys_witness :
  ∃ st', @from_config demo "Metric" (<["threshold" := VInt 1]> ∅) one_metric =
           (st', inl bind_error) ∧
         objects_kept one_metric st'.
Proof.
  apply (@from_config_rejects_other_keys demo one_metric "Metric"
           (<["threshold" := VInt 1]> ∅) "threshold" (VInt 1)); done.
Defined.

Lemma from_config_falsy_name_witness :
  ∃ st' new,
    @from_config demo "Metric" (<["dtype" := VNone]> (<["name" := VStr ""]> ∅))
      one_metric = (st', inr (VRef new)) ∧
    getattr (VRef new) "name" st' = (st', inr (VStr "Metric_")) ∧
    dtype new st' = (st', inr VNone) ∧
    name_uid st' = S (name_uid one_metric) ∧
    objects_kept one_metric st'.
Proof.
  apply (@from_config_falsy_name demo one_metric "Metric" (VStr "") VNone);
    reflexivity.
Defined.

Lemma add_weight_requires_initializer_witness :
  @add_weight demo 0%nat [VTuple []] ∅ one_metric = (one_metric, inl bind_error).
Proof.
  apply (@add_weight_requires_initializer demo one_metric 0%nat [VTuple []] ∅).
  - simpl. lia.
  - reflexivity.
Defined.

Lemma property_assignment_is_refused_witness :
  __setattr__ 0%nat "dtype" (VStr "float64") parent_child =
    (parent_child, inl (AttributeError "dtype")) ∧
  ∃ st', __setattr__ 0%nat "variables" (VRef 9%nat) parent_child =
           (st', inl (AttributeError "variables")) ∧
         heap st' !! 0%nat = heap parent_child !! 0%nat ∧
         own_variables parent_child (VRef 0%nat) = Some [VRef 8%nat] ∧
         own_variables st' (VRef 0%nat) = Some ([VRef 8%nat] ++ [VRef 9%nat]).
Proof.
  assert (HV : constructed parent_child 0%nat
                 (mkView "Metric"
                    (<["inner" := VRef 4%nat]>
                       (attrs_after_init ∅ VNone (VStr "Metric_") 1))
                    2%nat 1%nat 3%nat [VRef 8%nat] [VRef 4%nat] {[8%nat]} {[4%nat]})).
  { unfold constructed. simpl. repeat split; try reflexivity. lia. }
  split.
  - destruct (property_assignment_is_refused parent_child 0%nat _ "dtype" HV eq_refl)
      as [H _].
    exact (H (VStr "float64") eq_refl).
  - destruct (property_assignment_is_refused parent_child 0%nat _ "variables" HV eq_refl)
      as [_ H].
    destruct (H 9%nat eq_refl) as (st' & H1 & H2 & H3).
    exists st'. split; [exact H1|]. split; [exact H2|]. split; [reflexivity|].
    exact H3.
Defined.
